(** * A shallow embedding of [src/loader.py] (class [DataLoader])

    The loader keeps two Python lists of 2D numpy arrays ([ldct], [ndct]),
    an index array [indexes], and a handful of configuration attributes.
    Python integers are modelled as [Z], Python lists as [list], numpy 2D
    arrays as a list of rows together with the column count, exceptions
    as the error side of a [result], and the global numpy random generator
    as an explicit state that every stochastic call threads through. *)

From Stdlib Require Import String Ascii.
From Stdlib Require Import ZArith QArith List Bool Lia Permutation Sorted.
Import ListNotations.

Local Open Scope Z_scope.

(** ** Exceptions and the error monad *)

(** The Python exception kinds the loader can raise. *)
Inductive pyerr : Type :=
| IndexError
| ValueError
| TypeError
| AssertionError
| UnboundLocalError
| AttributeError
| ZeroDivisionError
| OSError.

Inductive result (A : Type) : Type :=
| Ok (a : A)
| Err (e : pyerr).

Arguments Ok {A} a.
Arguments Err {A} e.

Definition bind {A B : Type} (r : result A) (k : A -> result B) : result B :=
  match r with
  | Ok a => k a
  | Err e => Err e
  end.

Declare Scope py_scope.
Delimit Scope py_scope with py.
Notation "x <- r ;; k" := (bind r (fun x => k))
  (at level 61, r at next level, right associativity) : py_scope.
Notation "' p <- r ;; k" := (bind r (fun p => k))
  (at level 61, p pattern, r at next level, right associativity) : py_scope.
Local Open Scope py_scope.

(** [[f(x) for x in l]] where [f] may raise: the first failure aborts. *)
Fixpoint mapM {A B : Type} (f : A -> result B) (l : list A) : result (list B) :=
  match l with
  | [] => Ok []
  | a :: l' =>
      b <- f a ;;
      bs <- mapM f l' ;;
      Ok (b :: bs)
  end.

(** ** Python sequence indexing and slicing *)

Definition zlen {A : Type} (l : list A) : Z := Z.of_nat (length l).

(** Clamping of one slice bound (CPython's [PySlice_AdjustIndices], step 1):
    a negative bound counts from the end and is clipped at 0, a bound past
    the end is clipped at the length. *)
Definition adjust (len i : Z) : Z :=
  if i <? 0 then Z.max 0 (i + len) else Z.min i len.

(** [l[start:stop]]; never raises. *)
Definition py_slice {A : Type} (l : list A) (start stop : Z) : list A :=
  let s := adjust (zlen l) start in
  let e := adjust (zlen l) stop in
  firstn (Z.to_nat (e - s)) (skipn (Z.to_nat s) l).

(** Length of [l[start:stop]] for a sequence of length [len]. *)
Definition slice_len (len : nat) (start stop : Z) : nat :=
  Z.to_nat (adjust (Z.of_nat len) stop - adjust (Z.of_nat len) start).

(** [l[i]] on a Python list: negative indices wrap once, anything else out
    of range raises [IndexError]. *)
Definition py_getitem {A : Type} (l : list A) (i : Z) : result A :=
  let j := if i <? 0 then i + zlen l else i in
  if (j <? 0) || (zlen l <=? j) then Err IndexError
  else match nth_error l (Z.to_nat j) with
       | Some a => Ok a
       | None => Err IndexError
       end.

(** [np.arange(n)] *)
Definition arange (n : nat) : list Z := map Z.of_nat (seq 0 n).

(** ** 2D numpy arrays *)

(** A 2D array is its list of rows plus the column count, so that the
    shape [(h, w)] is defined even when [h = 0]. *)
Record ndarray (A : Type) : Type := mkArr {
  rows : list (list A);
  ncols : nat
}.

Arguments mkArr {A} rows ncols.
Arguments rows {A} _.
Arguments ncols {A} _.

Definition nrows {A : Type} (a : ndarray A) : nat := length (rows a).

(** [a.shape] *)
Definition shape {A : Type} (a : ndarray A) : Z * Z :=
  (Z.of_nat (nrows a), Z.of_nat (ncols a)).

Definition well_shaped {A : Type} (a : ndarray A) : Prop :=
  Forall (fun r => length r = ncols a) (rows a).

(** [a[i, j]] for in-range non-negative positions. *)
Definition get2 {A : Type} (a : ndarray A) (i j : nat) : option A :=
  match nth_error (rows a) i with
  | Some r => nth_error r j
  | None => None
  end.

(** [a[x0:x1, y0:y1]] *)
Definition slice2 {A : Type} (a : ndarray A) (x0 x1 y0 y1 : Z) : ndarray A :=
  mkArr (map (fun r => py_slice r y0 y1) (py_slice (rows a) x0 x1))
        (slice_len (ncols a) y0 y1).

(** [np.zeros((h, w))] filled with [z]. *)
Definition full {A : Type} (z : A) (h w : nat) : ndarray A :=
  mkArr (repeat (repeat z w) h) w.

Definition amap {A B : Type} (f : A -> B) (a : ndarray A) : ndarray B :=
  mkArr (map (map f) (rows a)) (ncols a).

(** Broadcasting one axis of length [len l] to length [n]: allowed when the
    lengths agree or the source has length 1. *)
Definition broadcast_axis {A : Type} (n : nat) (l : list A) : result (list A) :=
  if Nat.eqb (length l) n then Ok l
  else match l with
       | [x] => Ok (repeat x n)
       | _ => Err ValueError
       end.

(** Broadcasting a 2D array to shape [(h, w)], as numpy does on the right
    hand side of [dst[i] = src]. *)
Definition broadcast_to {A : Type} (h w : nat) (a : ndarray A) : result (ndarray A) :=
  if negb (Nat.eqb (ncols a) w || Nat.eqb (ncols a) 1) then Err ValueError
  else
    rs <- broadcast_axis h (rows a) ;;
    rs' <- mapM (broadcast_axis w) rs ;;
    Ok (mkArr rs' w).

(** [a[..., np.newaxis]]: every scalar becomes a length-1 innermost axis. *)
Definition newaxis {A : Type} (a : ndarray A) : ndarray (list A) :=
  amap (fun v => [v]) a.

(** In-place [l[i] = v] on a sequence; out of range raises. *)
Fixpoint setitem {A : Type} (l : list A) (i : nat) (v : A) : result (list A) :=
  match l, i with
  | [], _ => Err IndexError
  | _ :: l', O => Ok (v :: l')
  | a :: l', S i' => l'' <- setitem l' i' v ;; Ok (a :: l'')
  end.

(** ** File names and the directory listing *)

(** [needle in hay] on Python strings. *)
Fixpoint contains (needle hay : string) : bool :=
  String.prefix needle hay ||
  match hay with
  | EmptyString => false
  | String _ hay' => contains needle hay'
  end.

(** [name] matches the glob pattern [*suffix]. *)
Definition ends_with (suffix name : string) : bool :=
  let ls := String.length suffix in
  let ln := String.length name in
  Nat.leb ls ln && String.eqb (substring (ln - ls) ls name) suffix.

(** One [.npy] file of the data directory: its name and what [np.load]
    gives for it (an array, or the exception it raises). *)
Record npy_file (px : Type) : Type := mkFile {
  fname : string;
  fload : result (ndarray px)
}.

Arguments mkFile {px} fname fload.
Arguments fname {px} _.
Arguments fload {px} _.

Fixpoint insert_by_name {px : Type} (f : npy_file px) (l : list (npy_file px))
  : list (npy_file px) :=
  match l with
  | [] => [f]
  | f' :: l' =>
      if String.leb (fname f) (fname f') then f :: l
      else f' :: insert_by_name f l'
  end.

(** [sorted(paths)] for paths of one directory: ascending by file name. *)
Definition sorted {px : Type} (l : list (npy_file px)) : list (npy_file px) :=
  fold_right insert_by_name [] l.

(** The order of [sorted]: by file name, code point by code point. *)
Definition name_le {px : Type} (a b : npy_file px) : Prop :=
  String.leb (fname a) (fname b) = true.

(** [Path(data_path).glob(pattern)] with [pattern = "*" + suffix]. *)
Definition glob {px : Type} (dir : list (npy_file px)) (suffix : string)
  : list (npy_file px) :=
  filter (fun f => ends_with suffix (fname f)) dir.

(** ** The augmentation pipeline object *)

(** The three albumentations transforms the loader composes. *)
Inductive transform : Type :=
| GridDistortion (num_steps : Z)
| ElasticTransform
| CLAHE.

(** [Compose([...])]: the ordered steps, each with the probability [p] it
    was constructed with. *)
Definition Compose : Type := list (transform * Q).

Inductive Mode : Type := train | valid | test.

Definition is_train (m : Mode) : bool :=
  match m with train => true | _ => false end.

(** ** The external collaborators

    Element type of the stored arrays, the [float32] element type of a
    batch, the conversion numpy applies when a row is stored into the
    batch, and [float32] zero. *)
Class Pixels : Type := {
  px : Type;
  f32 : Type;
  as_f32 : px -> f32;
  zero32 : f32
}.

(** The pseudo-random state and the library calls that consume it:
    [np.random.shuffle], [np.random.randint], the Bernoulli trial each
    albumentations step makes against its [p], and the step itself. *)
Class Random {P : Pixels} : Type := {
  RNG : Type;
  np_shuffle : RNG -> list Z -> list Z * RNG;
  np_randint : RNG -> Z -> Z -> result (Z * RNG);
  bernoulli : RNG -> Q -> bool * RNG;
  apply_transform :
    transform -> RNG -> ndarray px * ndarray px -> (ndarray px * ndarray px) * RNG
}.

(** The documented behaviour of the two numpy calls: [shuffle] permutes its
    argument, [randint(low, high)] returns a value of [[low, high)] and
    raises [ValueError] when that range is empty. *)
Class RandomSpec {P : Pixels} (R : Random) : Prop := {
  np_shuffle_perm : forall g l, Permutation l (fst (np_shuffle g l));
  np_randint_range : forall g lo hi, lo < hi ->
    exists x g', np_randint g lo hi = Ok (x, g') /\ lo <= x < hi;
  np_randint_empty : forall g lo hi, hi <= lo ->
    np_randint g lo hi = Err ValueError
}.

(** What the three albumentations steps guarantee about array shapes: each
    returns image and mask with the shapes it received. *)
Class TransformSpec {P : Pixels} (R : Random) : Prop := {
  apply_transform_shape : forall t g d,
    shape (fst (fst (apply_transform t g d))) = shape (fst d) /\
    shape (snd (fst (apply_transform t g d))) = shape (snd d);
  apply_transform_well_shaped : forall t g d,
    well_shaped (fst d) -> well_shaped (snd d) ->
    well_shaped (fst (fst (apply_transform t g d))) /\
    well_shaped (snd (fst (apply_transform t g d)))
}.

(** A trial against probability 0 never fires ([random() < 0] is false). *)
Class TrialSpec {P : Pixels} (R : Random) : Prop := {
  bernoulli_zero : forall g, fst (bernoulli g 0) = false
}.

(** A deterministic stand-in for the collaborators: a small
    linear-congruential generator over integer pixels.  It plays the role
    of numpy's generator and of the albumentations transforms wherever a
    statement about the loader is exercised on concrete data. *)
Module Sim.

Definition next (g : Z) : Z := (g * 1103515245 + 12345) mod 2147483648.

Definition randint (g : Z) (lo hi : Z) : result (Z * Z) :=
  if lo <? hi then Ok (lo + g mod (hi - lo), next g) else Err ValueError.

(** A rotation of the sequence by an amount taken from the state. *)
Definition shuffle (g : Z) (l : list Z) : list Z * Z :=
  let k := Z.to_nat (g mod (Z.of_nat (length l))) in
  ((skipn k l ++ firstn k l)%list, next g).

Definition trial (g : Z) (p : Q) : bool * Z :=
  (negb (Qle_bool p (inject_Z (g mod 100) / 100)), next g).

(** Geometric steps flip image and mask alike; the contrast step touches
    the image only. *)
Definition apply (t : transform) (g : Z) (d : ndarray Z * ndarray Z)
  : (ndarray Z * ndarray Z) * Z :=
  match t with
  | CLAHE => ((amap (Z.add 1) (fst d), snd d), g)
  | _ => ((mkArr (rev (rows (fst d))) (ncols (fst d)),
           mkArr (rev (rows (snd d))) (ncols (snd d))), g)
  end.

Definition pixels : Pixels :=
  {| px := Z; f32 := Z; as_f32 := fun v => v; zero32 := 0 |}.

Definition random : @Random pixels :=
  @Build_Random pixels Z shuffle randint trial apply.

(** A [k] by [k] array whose entry [(i, j)] is [base + 10*i + j]. *)
Definition ramp (base : Z) (k : nat) : ndarray Z :=
  mkArr (map (fun i => map (fun j => base + 10 * Z.of_nat i + Z.of_nat j) (seq 0 k))
             (seq 0 k)) k.

End Sim.

(** ** The loader *)

Section Loader.

Context {P : Pixels} {R : Random}.

Definition image : Type := ndarray px.
Definition batch : Type := list (ndarray (list f32)).

Record DataLoader : Type := mkLoader {
  mode : Mode;
  valid_patient : string;
  test_patient : string;
  batch_size : Z;
  train_pair : bool;
  patch_size : option Z;
  ldct : list image;
  ndct : list image;
  input_size : Z * Z;
  indexes : list Z;
  prob_distort : Q;
  prob_elastic : Q;
  prob_histeq : Q;
  aug : option Compose
}.

Definition with_indexes (self : DataLoader) (ix : list Z) : DataLoader :=
  mkLoader (mode self) (valid_patient self) (test_patient self) (batch_size self)
    (train_pair self) (patch_size self) (ldct self) (ndct self) (input_size self)
    ix (prob_distort self) (prob_elastic self) (prob_histeq self) (aug self).

(** [__len__] *)
Definition __len__ (self : DataLoader) : result Z :=
  if batch_size self =? 0 then Err ZeroDivisionError
  else Ok (zlen (ldct self) / batch_size self).

(** [on_epoch_end] *)
Definition on_epoch_end (self : DataLoader) (g : RNG) : DataLoader * RNG :=
  match mode self with
  | train =>
      let (ix, g') := np_shuffle g (indexes self) in
      (with_indexes self ix, g')
  | _ => (self, g)
  end.

(** The filter of the three list comprehensions of [load]. *)
Definition selected (m : Mode) (vp tp : string) (f : npy_file px) : bool :=
  match m with
  | train => negb (contains vp (fname f)) && negb (contains tp (fname f))
  | valid => contains vp (fname f)
  | test => contains tp (fname f)
  end.

(** [load], reading [self.mode], [self.valid_patient], [self.test_patient]. *)
Definition load (m : Mode) (vp tp : string) (ldct_paths ndct_paths : list (npy_file px))
  : result (list image * list image) :=
  l <- mapM fload (filter (selected m vp tp) ldct_paths) ;;
  n <- mapM fload (filter (selected m vp tp) ndct_paths) ;;
  Ok (l, n).

(** [set_params] *)
Definition set_params (self : DataLoader) (grid_distort elastic_deform histeq : Q)
  : DataLoader :=
  mkLoader (mode self) (valid_patient self) (test_patient self) (batch_size self)
    (train_pair self) (patch_size self) (ldct self) (ndct self) (input_size self)
    (indexes self) grid_distort elastic_deform histeq (aug self).

(** The pipeline [Compose([GridDistortion(num_steps=3, p=d),
    ElasticTransform(p=e), CLAHE(p=h)])]. *)
Definition pipeline (d e h : Q) : Compose :=
  [(GridDistortion 3, d); (ElasticTransform, e); (CLAHE, h)].

(** [get_augmentation] *)
Definition get_augmentation (self : DataLoader) : DataLoader :=
  mkLoader (mode self) (valid_patient self) (test_patient self) (batch_size self)
    (train_pair self) (patch_size self) (ldct self) (ndct self) (input_size self)
    (indexes self) (prob_distort self) (prob_elastic self) (prob_histeq self)
    (Some (pipeline (prob_distort self) (prob_elastic self) (prob_histeq self))).

(** [__init__].  [data_path] stands for the listing of the directory of
    that name.  The attributes [prob_*] and [aug] do not exist before
    [set_params] and [get_augmentation] run at the end of the constructor;
    the placeholders they start with here are overwritten by these calls
    before anything reads them. *)
Definition __init__ (m : Mode) (data_path : list (npy_file px))
    (vp tp : string) (bs : Z) (tpair : bool) (ps : option Z) (g : RNG)
  : result (DataLoader * RNG) :=
  let ldct_paths := sorted (glob data_path "_ldct.npy") in
  let ndct_paths := sorted (glob data_path "_ndct.npy") in
  '(l, n) <- load m vp tp ldct_paths ndct_paths ;;
  isz <- match ps with
         | Some p => Ok (p, p)
         | None => a <- py_getitem l 0 ;; Ok (shape a)
         end ;;
  let self := mkLoader m vp tp bs tpair ps l n isz (arange (length l))
                       0%Q 0%Q 0%Q None in
  let (self, g') := on_epoch_end self g in
  let self := set_params self 0%Q 0%Q 0%Q in
  Ok (get_augmentation self, g').

(** Modelled from the spec: the call [self.aug(image=..., mask=...)] runs
    albumentations code that is not part of the loader.  As section 4.3
    of the specification describes it, the steps run in their fixed order,
    each behind its own Bernoulli trial at the probability it was built
    with. *)
Fixpoint run_compose (c : Compose) (g : RNG) (d : image * image)
  : (image * image) * RNG :=
  match c with
  | [] => (d, g)
  | (t, p) :: c' =>
      let (hit, g1) := bernoulli g p in
      if hit then
        let (d', g2) := apply_transform t g1 d in run_compose c' g2 d'
      else run_compose c' g1 d
  end.

Definition shape_eqb (s t : Z * Z) : bool :=
  (fst s =? fst t) && (snd s =? snd t).

(** [random_crop] *)
Definition random_crop (self : DataLoader) (img mask : image) (g : RNG)
  : result ((image * image) * RNG) :=
  if negb (shape_eqb (shape img) (shape mask)) then Err AssertionError
  else match patch_size self with
       | None => Err UnboundLocalError
       | Some p =>
           let (h, w) := shape img in
           '(x, g1) <- np_randint g 0 (h - p) ;;
           '(y, g2) <- np_randint g1 0 (w - p) ;;
           Ok ((slice2 img x (x + p) y (y + p),
                slice2 mask x (x + p) y (y + p)), g2)
       end.

(** [x//2 - (patch_size//2)] *)
Definition center_start (x p : Z) : Z := x / 2 - p / 2.

(** [center_crop] *)
Definition center_crop (self : DataLoader) (img : image) : result image :=
  match patch_size self with
  | None => Err TypeError
  | Some p =>
      let (x, y) := shape img in
      let startx := center_start x p in
      let starty := center_start y p in
      Ok (slice2 img startx (startx + p) starty (starty + p))
  end.

(** The target index chosen for source index [ldct_i] (lines 86-89). *)
Definition pair_index (tpair : bool) (ldct_i : Z) : Z :=
  if tpair then ldct_i
  else if negb (ldct_i =? 0) then ldct_i - 1 else ldct_i + 1.

(** The body of the loop of [getbatch] up to the two cropped arrays. *)
Definition sample (self : DataLoader) (ldct_i : Z) (g : RNG)
  : result ((image * image) * RNG) :=
  let ndct_i := pair_index (train_pair self) ldct_i in
  l <- py_getitem (ldct self) ldct_i ;;
  n <- py_getitem (ndct self) ndct_i ;;
  if is_train (mode self) then
    match aug self with
    | None => Err AttributeError
    | Some a =>
        let (d, g1) := run_compose a g (l, n) in
        random_crop self (fst d) (snd d) g1
    end
  else
    l' <- center_crop self l ;;
    n' <- center_crop self n ;;
    Ok ((l', n'), g).

(** [np.zeros((b, h, w), dtype=np.float32)] as its [b] planes. *)
Definition np_zeros (b : Z) (sz : Z * Z) : result (list (ndarray f32)) :=
  if (b <? 0) || (fst sz <? 0) || (snd sz <? 0) then Err ValueError
  else Ok (repeat (full zero32 (Z.to_nat (fst sz)) (Z.to_nat (snd sz)))
                  (Z.to_nat b)).

(** [b[i] = v]: the index is resolved, then [v] is broadcast to the shape
    of a plane and converted. *)
Definition assign_row (b : list (ndarray f32)) (sz : Z * Z) (i : nat) (v : image)
  : result (list (ndarray f32)) :=
  if Nat.ltb i (length b) then
    v' <- broadcast_to (Z.to_nat (fst sz)) (Z.to_nat (snd sz)) v ;;
    setitem b i (amap as_f32 v')
  else Err IndexError.

(** The loop [for i, ldct_i in enumerate(indexes)] of [getbatch]. *)
Fixpoint fill (self : DataLoader) (i : nat) (ixs : list Z)
    (bx by_ : list (ndarray f32)) (g : RNG)
  : result ((list (ndarray f32) * list (ndarray f32)) * RNG) :=
  match ixs with
  | [] => Ok ((bx, by_), g)
  | ldct_i :: rest =>
      '(d, g1) <- sample self ldct_i g ;;
      bx' <- assign_row bx (input_size self) i (fst d) ;;
      by' <- assign_row by_ (input_size self) i (snd d) ;;
      fill self (S i) rest bx' by' g1
  end.

(** [getbatch] *)
Definition getbatch (self : DataLoader) (ixs : list Z) (g : RNG)
  : result ((batch * batch) * RNG) :=
  bx <- np_zeros (batch_size self) (input_size self) ;;
  by_ <- np_zeros (batch_size self) (input_size self) ;;
  '(b, g') <- fill self 0 ixs bx by_ g ;;
  Ok ((map newaxis (fst b), map newaxis (snd b)), g').

(** The slice of the index array taken by [__getitem__]. *)
Definition window (self : DataLoader) (idx : Z) : list Z :=
  py_slice (indexes self) (idx * batch_size self) ((idx + 1) * batch_size self).

(** [__getitem__] *)
Definition __getitem__ (self : DataLoader) (idx : Z) (g : RNG)
  : result ((batch * batch) * RNG) :=
  getbatch self (window self idx) g.

(** A batch plane that no sample was written to. *)
Definition zero_plane (self : DataLoader) : ndarray (list f32) :=
  newaxis (full zero32 (Z.to_nat (fst (input_size self)))
                       (Z.to_nat (snd (input_size self)))).

(** The loaders the constructor builds from an aligned directory: equally
    many sources and targets, an index array over [[0, N)], and a store in
    which the neighbour of slot 0 exists when neighbours are paired. *)
Definition aligned (self : DataLoader) : Prop :=
  length (ndct self) = length (ldct self) /\
  Forall (fun j => 0 <= j < zlen (ldct self)) (indexes self) /\
  (train_pair self = true \/ length (ldct self) <> 1%nat).

(** A stored array large enough for the center window of size [p]. *)
Definition fits (p : Z) (a : image) : Prop :=
  well_shaped a /\ p <= Z.of_nat (nrows a) /\ p <= Z.of_nat (ncols a).

(** A loader with patch size [p] all of whose arrays admit the center
    window. *)
Definition croppable (self : DataLoader) (p : Z) : Prop :=
  patch_size self = Some p /\ input_size self = (p, p) /\ 0 <= p /\
  Forall (fits p) (ldct self) /\ Forall (fits p) (ndct self).

(** The window [center_crop] cuts for patch size [p]. *)
Definition center_window (p : Z) (a : image) : image :=
  let startx := center_start (Z.of_nat (nrows a)) p in
  let starty := center_start (Z.of_nat (ncols a)) p in
  slice2 a startx (startx + p) starty (starty + p).

(** The batch plane written for a cropped array [a]. *)
Definition plane_of (a : image) : ndarray (list f32) :=
  newaxis (amap as_f32 a).

(** A loader with patch size [p] whose arrays all have one shape [(h, w)]
    strictly larger than the patch in both dimensions. *)
Definition roomy (self : DataLoader) (p h w : Z) : Prop :=
  patch_size self = Some p /\ input_size self = (p, p) /\ 0 <= p /\
  p < h /\ p < w /\
  Forall (fun a => well_shaped a /\ shape a = (h, w)) (ldct self) /\
  Forall (fun a => well_shaped a /\ shape a = (h, w)) (ndct self).

(** A plane of the batch under assembly, before the channel axis is
    appended. *)
Definition raw_plane (sz : Z * Z) (a : ndarray f32) : Prop :=
  nrows a = Z.to_nat (fst sz) /\ ncols a = Z.to_nat (snd sz) /\ well_shaped a.

(** A plane of a returned batch: [h] rows of [w] pixels, each pixel a
    length-1 channel axis. *)
Definition plane_shape (sz : Z * Z) (pl : ndarray (list f32)) : Prop :=
  shape pl = sz /\
  Forall (fun r => length r = ncols pl /\ Forall (fun v => length v = 1%nat) r)
         (rows pl).

(** The generator state after the three trials of the pipeline when none
    of them fires. *)
Definition after_trials (d e h : Q) (g : RNG) : RNG :=
  snd (bernoulli (snd (bernoulli (snd (bernoulli g d)) e)) h).

(** [l] holds each integer of [[0, n)] exactly once. *)
Definition is_permutation (n : nat) (l : list Z) : Prop :=
  Permutation l (arange n).

End Loader.

(** ** Concrete data used to exercise the statements *)

Module Ex.

#[local] Existing Instances Sim.pixels Sim.random.

Definition file (name : string) (base : Z) (k : nat) : npy_file Z :=
  mkFile name (Ok (Sim.ramp base k)).

(** An aligned directory: every slice has its source and its target. *)
Definition dir : list (npy_file Z) :=
  [ file "L001_b_ldct.npy" 200 4; file "L001_a_ndct.npy" 500 4;
    file "L001_a_ldct.npy" 100 4; file "L001_b_ndct.npy" 600 4;
    file "L333_a_ldct.npy" 300 4; file "L333_a_ndct.npy" 700 4;
    file "L506_a_ldct.npy" 400 4; file "L506_a_ndct.npy" 800 4;
    mkFile "notes.txt" (Err OSError) ].

(** The same directory with one target missing. *)
Definition dir_missing : list (npy_file Z) :=
  [ file "L001_b_ldct.npy" 200 4; file "L001_a_ndct.npy" 500 4;
    file "L001_a_ldct.npy" 100 4;
    file "L333_a_ldct.npy" 300 4; file "L333_a_ndct.npy" 700 4 ].

(** The loader [DataLoader("train", dir, "L333", "L506", 1, True, 3)] as
    the constructor leaves it when the generator starts in state 7. *)
Definition train_loader : DataLoader :=
  mkLoader train "L333" "L506" 1 true (Some 3)
    [Sim.ramp 100 4; Sim.ramp 200 4] [Sim.ramp 500 4; Sim.ramp 600 4]
    (3, 3) [1; 0] 0%Q 0%Q 0%Q (Some (pipeline 0%Q 0%Q 0%Q)).

(** The loader [DataLoader("valid", dir, "L333", "L506", 1, True, 3)]. *)
Definition valid_loader : DataLoader :=
  mkLoader valid "L333" "L506" 1 true (Some 3)
    [Sim.ramp 300 4] [Sim.ramp 700 4]
    (3, 3) [0] 0%Q 0%Q 0%Q (Some (pipeline 0%Q 0%Q 0%Q)).

(** The loader [DataLoader("test", dir, "L333", "L506", 2, True, 3)]: one
    sample, batches of two. *)
Definition test_loader : DataLoader :=
  mkLoader test "L333" "L506" 2 true (Some 3)
    [Sim.ramp 400 4] [Sim.ramp 800 4]
    (3, 3) [0] 0%Q 0%Q 0%Q (Some (pipeline 0%Q 0%Q 0%Q)).

(** A one-sample store read without [train_pair]. *)
Definition lone_unpaired : DataLoader :=
  mkLoader valid "L333" "L506" 1 false (Some 3)
    [Sim.ramp 300 4] [Sim.ramp 700 4]
    (3, 3) [0] 0%Q 0%Q 0%Q (Some (pipeline 0%Q 0%Q 0%Q)).

(** The loader [DataLoader("valid", dir, "L333", "L506", 1, True, None)]. *)
Definition full_size_loader : DataLoader :=
  mkLoader valid "L333" "L506" 1 true None
    [Sim.ramp 300 4] [Sim.ramp 700 4]
    (4, 4) [0] 0%Q 0%Q 0%Q (Some (pipeline 0%Q 0%Q 0%Q)).

(** Five one-pixel slices in batches of two, in a shuffled order. *)
Definition five : DataLoader :=
  mkLoader train "L333" "L506" 2 true (Some 1)
    (repeat (Sim.ramp 1 1) 5) (repeat (Sim.ramp 2 1) 5)
    (1, 1) [3; 0; 4; 1; 2] 0%Q 0%Q 0%Q (Some (pipeline 0%Q 0%Q 0%Q)).

(** The loader [DataLoader("train", dir_missing, "L333", "L506", 1, True, 3)]
    as the constructor leaves it when the generator starts in state 7: two
    sources, one target. *)
Definition short_targets : DataLoader :=
  mkLoader train "L333" "L506" 1 true (Some 3)
    [Sim.ramp 100 4; Sim.ramp 200 4] [Sim.ramp 500 4]
    (3, 3) [1; 0] 0%Q 0%Q 0%Q (Some (pipeline 0%Q 0%Q 0%Q)).

(** The loader [DataLoader("valid", dir, "L333", "L506", 1, True, 10)]:
    a patch larger than the stored 4 x 4 arrays. *)
Definition big_patch_loader : DataLoader :=
  mkLoader valid "L333" "L506" 1 true (Some 10)
    [Sim.ramp 300 4] [Sim.ramp 700 4]
    (10, 10) [0] 0%Q 0%Q 0%Q (Some (pipeline 0%Q 0%Q 0%Q)).

(** The all-zero [3 x 3 x 1] plane of a batch. *)
Definition zeros3 : ndarray (list Z) :=
  mkArr (repeat (repeat [0] 3) 3) 3.

(** A store of seventeen one-pixel slices read in batches of eight. *)
Definition seventeen : DataLoader :=
  mkLoader valid "L333" "L506" 8 true (Some 1)
    (repeat (Sim.ramp 1 1) 17) (repeat (Sim.ramp 2 1) 17)
    (1, 1) (arange 17) 0%Q 0%Q 0%Q (Some (pipeline 0%Q 0%Q 0%Q)).

End Ex.

(** * Properties *)

(** ** Slices *)

Lemma adjust_range (len i : Z) : 0 <= len -> 0 <= adjust len i <= len.
Proof.
  intros Hlen. unfold adjust.
  destruct (Z.ltb_spec i 0); lia.
Qed.

Lemma adjust_inside (len i : Z) : 0 <= i <= len -> adjust len i = i.
Proof.
  intros Hi. unfold adjust.
  destruct (Z.ltb_spec i 0); lia.
Qed.

Lemma slice_len_le (n : nat) (s e : Z) : (slice_len n s e <= n)%nat.
Proof.
  unfold slice_len.
  pose proof (adjust_range (Z.of_nat n) s ltac:(lia)).
  pose proof (adjust_range (Z.of_nat n) e ltac:(lia)).
  lia.
Qed.

Lemma slice_len_inside (n : nat) (s e : Z) :
  0 <= s -> s <= e -> e <= Z.of_nat n -> slice_len n s e = Z.to_nat (e - s).
Proof.
  intros Hs Hse He. unfold slice_len.
  rewrite !adjust_inside by lia. reflexivity.
Qed.

Lemma length_py_slice {A : Type} (l : list A) (s e : Z) :
  length (py_slice l s e) = slice_len (length l) s e.
Proof.
  unfold py_slice, slice_len, zlen.
  pose proof (adjust_range (Z.of_nat (length l)) s ltac:(lia)).
  pose proof (adjust_range (Z.of_nat (length l)) e ltac:(lia)).
  rewrite length_firstn, length_skipn. lia.
Qed.

Lemma py_slice_inside {A : Type} (l : list A) (s e : Z) :
  0 <= s -> s <= e -> e <= zlen l ->
  py_slice l s e = firstn (Z.to_nat (e - s)) (skipn (Z.to_nat s) l).
Proof.
  intros Hs Hse He. unfold py_slice.
  rewrite !adjust_inside by lia. reflexivity.
Qed.

Lemma nth_error_py_slice {A : Type} (l : list A) (s e : Z) (i : nat) :
  0 <= s -> e <= zlen l -> s + Z.of_nat i < e ->
  nth_error (py_slice l s e) i = nth_error l (Z.to_nat s + i).
Proof.
  intros Hs He Hi.
  rewrite py_slice_inside by lia.
  rewrite nth_error_firstn, nth_error_skipn.
  destruct (Nat.ltb_spec i (Z.to_nat (e - s))); [reflexivity | lia].
Qed.

Lemma py_slice_past_end {A : Type} (l : list A) (s e : Z) :
  zlen l <= s -> py_slice l s e = [].
Proof.
  intros Hs.
  apply length_zero_iff_nil. rewrite length_py_slice.
  unfold slice_len, zlen in *.
  pose proof (adjust_range (Z.of_nat (length l)) e ltac:(lia)).
  unfold adjust at 2. destruct (Z.ltb_spec s 0); lia.
Qed.

Lemma firstn_add {A : Type} (a b : nat) (l : list A) :
  firstn (a + b) l = (firstn a l ++ firstn b (skipn a l))%list.
Proof.
  revert l. induction a as [|a IH]; intros l; simpl.
  - reflexivity.
  - destruct l as [|x l]; simpl.
    + now rewrite firstn_nil.
    + now rewrite IH.
Qed.

(** ** 2D windows *)

Lemma shape_slice2 {A : Type} (a : ndarray A) (x0 x1 y0 y1 : Z) :
  shape (slice2 a x0 x1 y0 y1) =
  (Z.of_nat (slice_len (nrows a) x0 x1), Z.of_nat (slice_len (ncols a) y0 y1)).
Proof.
  unfold shape, slice2, nrows; simpl.
  now rewrite length_map, length_py_slice.
Qed.

Lemma Forall_py_slice {A : Type} (Q : A -> Prop) (l : list A) (s e : Z) :
  Forall Q l -> Forall Q (py_slice l s e).
Proof.
  intros H. unfold py_slice.
  set (s' := Z.to_nat (adjust (zlen l) s)).
  set (n := Z.to_nat (adjust (zlen l) e - adjust (zlen l) s)).
  rewrite <- (firstn_skipn s' l) in H. apply Forall_app in H as [_ H].
  rewrite <- (firstn_skipn n (skipn s' l)) in H. now apply Forall_app in H.
Qed.

Lemma well_shaped_slice2 {A : Type} (a : ndarray A) (x0 x1 y0 y1 : Z) :
  well_shaped a -> well_shaped (slice2 a x0 x1 y0 y1).
Proof.
  unfold well_shaped, slice2; simpl. intros H.
  apply Forall_map.
  eapply Forall_impl; [| apply Forall_py_slice; exact H].
  simpl. intros r Hr. now rewrite length_py_slice, Hr.
Qed.

Lemma get2_slice2 {A : Type} (a : ndarray A) (x y p : Z) (i j : nat) :
  well_shaped a ->
  0 <= x -> x + p <= Z.of_nat (nrows a) ->
  0 <= y -> y + p <= Z.of_nat (ncols a) ->
  Z.of_nat i < p -> Z.of_nat j < p ->
  get2 (slice2 a x (x + p) y (y + p)) i j =
  get2 a (Z.to_nat x + i) (Z.to_nat y + j).
Proof.
  intros Hws Hx Hxp Hy Hyp Hi Hj.
  unfold get2, slice2; simpl.
  rewrite nth_error_map.
  rewrite nth_error_py_slice by (unfold zlen, nrows in *; lia).
  destruct (nth_error (rows a) (Z.to_nat x + i)) as [r|] eqn:Er; simpl;
    [| reflexivity].
  apply nth_error_In in Er.
  unfold well_shaped in Hws. rewrite Forall_forall in Hws.
  specialize (Hws r Er).
  apply nth_error_py_slice; unfold zlen; lia.
Qed.

(** ** Monadic plumbing *)

Lemma bind_Ok {A B : Type} (r : result A) (k : A -> result B) (b : B) :
  bind r k = Ok b -> exists a, r = Ok a /\ k a = Ok b.
Proof.
  destruct r as [a|e]; simpl; intros H; [eauto | discriminate].
Qed.

Lemma bind_Err {A B : Type} (r : result A) (k : A -> result B) (e : pyerr) :
  bind r k = Err e -> r = Err e \/ exists a, r = Ok a /\ k a = Err e.
Proof.
  destruct r as [a|e']; simpl; intros H; [right; eauto | left; congruence].
Qed.

Section Facts.

Context {P : Pixels} {R : Random}.

(** ** Pairing policy *)

(** C5: the target index is [j] itself under [train_pair]; otherwise it
    is [j - 1], except for [j = 0] where it is [j + 1]; so without
    [train_pair] index 0 maps to 1 and index 5 maps to 4.  The loop body
    fetches the target array at exactly that index. *)
Theorem pairing_policy (self : DataLoader) (j : Z) (g : RNG) :
  pair_index true j = j /\
  pair_index false j = (if j =? 0 then j + 1 else j - 1) /\
  pair_index false 0 = 1 /\
  pair_index false 5 = 4 /\
  (forall l n, py_getitem (ldct self) j = Ok l ->
     py_getitem (ndct self) (pair_index (train_pair self) j) = Ok n ->
     is_train (mode self) = false ->
     sample self j g =
       (l' <- center_crop self l ;; n' <- center_crop self n ;; Ok ((l', n'), g))).
Proof.
  repeat split.
  - unfold pair_index. destruct (Z.eqb_spec j 0); reflexivity.
  - intros l n Hl Hn Hm. unfold sample. rewrite Hl, Hn, Hm. reflexivity.
Qed.

(** ** Batch count *)

Lemma windows_prefix (self : DataLoader) (n : nat) :
  0 <= batch_size self ->
  Z.of_nat n * batch_size self <= zlen (indexes self) ->
  flat_map (fun k => window self (Z.of_nat k)) (seq 0 n) =
  firstn (Z.to_nat (Z.of_nat n * batch_size self)) (indexes self).
Proof.
  intros HB. induction n as [|n IH]; intros Hn.
  - reflexivity.
  - rewrite seq_S, flat_map_app, IH by lia.
    cbn [flat_map Nat.add]. rewrite app_nil_r.
    unfold window. rewrite py_slice_inside by lia.
    replace (Z.to_nat (Z.of_nat (S n) * batch_size self))
      with (Z.to_nat (Z.of_nat n * batch_size self) + Z.to_nat (batch_size self))%nat
      by lia.
    rewrite firstn_add. do 2 f_equal. lia.
Qed.

(** C6: for a positive batch size, [__len__] is exactly [floor(N / B)]:
    the largest [q] with [q * B <= N].  The windows of positions
    [0 .. q-1] together are the first [q * B] entries of the index
    array, so the [N mod B] trailing entries are not drawn in a pass;
    with [N = 17] and [B = 8] there are 2 batches covering 16 entries. *)
Theorem batch_count_floor (self : DataLoader) :
  0 < batch_size self ->
  length (indexes self) = length (ldct self) ->
  let N := zlen (ldct self) in
  let B := batch_size self in
  __len__ self = Ok (N / B) /\
  (N / B) * B <= N < (N / B + 1) * B /\
  flat_map (fun k => window self (Z.of_nat k)) (seq 0 (Z.to_nat (N / B))) =
    firstn (Z.to_nat (N / B * B)) (indexes self) /\
  (N = 17 -> B = 8 -> __len__ self = Ok 2 /\
     flat_map (fun k => window self (Z.of_nat k)) (seq 0 2) =
     firstn 16 (indexes self)).
Proof.
  intros HB Hlen N B.
  assert (HN : 0 <= N) by (unfold N, zlen; lia).
  assert (Hq : 0 <= N / B) by (apply Z.div_pos; lia).
  assert (Hfloor : N / B * B <= N < (N / B + 1) * B).
  { pose proof (Z.mul_div_le N B HB).
    pose proof (Z.mul_succ_div_gt N B HB). lia. }
  assert (Hlen_ : __len__ self = Ok (N / B)).
  { unfold __len__. fold B.
    destruct (Z.eqb_spec B 0); [lia | reflexivity]. }
  assert (Hwin : flat_map (fun k => window self (Z.of_nat k)) (seq 0 (Z.to_nat (N / B))) =
                 firstn (Z.to_nat (N / B * B)) (indexes self)).
  { rewrite windows_prefix; fold B.
    - rewrite Z2Nat.id by lia. reflexivity.
    - lia.
    - rewrite Z2Nat.id by lia. unfold zlen. rewrite Hlen. fold (zlen (ldct self)).
      fold N. lia. }
  split; [exact Hlen_ |]. split; [exact Hfloor |]. split; [exact Hwin |].
  intros HN17 HB8. rewrite Hlen_. rewrite HN17, HB8 in Hwin |- *.
  split; [reflexivity | exact Hwin].
Qed.

(** ** Center crop *)

Lemma center_start_fits (x p : Z) :
  0 <= p -> p <= x -> 0 <= center_start x p /\ center_start x p + p <= x.
Proof.
  intros Hp Hx. unfold center_start.
  pose proof (Z.div_mod x 2 ltac:(lia)).
  pose proof (Z.div_mod p 2 ltac:(lia)).
  pose proof (Z.mod_pos_bound x 2 ltac:(lia)).
  pose proof (Z.mod_pos_bound p 2 ltac:(lia)).
  lia.
Qed.

Lemma center_start_parity (x p : Z) :
  center_start x p =
  (x - p) / 2 + (if Z.odd p && Z.even x then 1 else 0).
Proof.
  unfold center_start.
  rewrite (Zodd_mod p), (Zeven_mod x).
  pose proof (Z.div_mod x 2 ltac:(lia)).
  pose proof (Z.div_mod p 2 ltac:(lia)).
  pose proof (Z.div_mod (x - p) 2 ltac:(lia)).
  pose proof (Z.mod_pos_bound x 2 ltac:(lia)).
  pose proof (Z.mod_pos_bound p 2 ltac:(lia)).
  pose proof (Z.mod_pos_bound (x - p) 2 ltac:(lia)).
  destruct (Z.eqb_spec (p mod 2) 1), (Z.eqb_spec (x mod 2) 0); simpl; lia.
Qed.

(** C7 (as amended): with the window in bounds, [center_crop] returns the
    [(P, P)] window that starts at [X//2 - P//2], [Y//2 - P//2].  That
    start equals [(X - P)//2] when [P] is even or [X] is odd, and
    [(X - P)//2 + 1] when [P] is odd and [X] is even. *)
Theorem center_crop_window (self : DataLoader) (img : image) (p : Z) :
  patch_size self = Some p ->
  well_shaped img ->
  0 <= p ->
  let X := Z.of_nat (nrows img) in
  let Y := Z.of_nat (ncols img) in
  let startx := X / 2 - p / 2 in
  let starty := Y / 2 - p / 2 in
  0 <= startx -> startx + p <= X ->
  0 <= starty -> starty + p <= Y ->
  (exists r, center_crop self img = Ok r /\
     shape r = (p, p) /\
     forall i j, Z.of_nat i < p -> Z.of_nat j < p ->
       get2 r i j = get2 img (Z.to_nat startx + i) (Z.to_nat starty + j)) /\
  (Z.even p = true \/ Z.odd X = true -> startx = (X - p) / 2) /\
  (Z.odd p = true -> Z.even X = true -> startx = (X - p) / 2 + 1).
Proof.
  intros Hps Hws Hp X Y startx starty Hx0 Hx1 Hy0 Hy1.
  split; [| split].
  - eexists. split; [| split].
    + unfold center_crop. rewrite Hps. unfold shape, center_start.
      fold X Y startx starty. reflexivity.
    + rewrite shape_slice2, !slice_len_inside by (fold X Y; lia).
      f_equal; lia.
    + intros i j Hi Hj. apply get2_slice2; fold X Y; try assumption; lia.
  - intros Hpar. fold (center_start X p) in startx. unfold startx.
    rewrite center_start_parity.
    destruct Hpar as [Hev | Hodd].
    + rewrite <- (Z.negb_even p), Hev. simpl. lia.
    + rewrite <- (Z.negb_odd X), Hodd, andb_false_r. lia.
  - intros Hodd Hev. fold (center_start X p) in startx. unfold startx.
    rewrite center_start_parity, Hodd, Hev. reflexivity.
Qed.

Lemma nth_error_py_slice_any {A : Type} (l : list A) (s e : Z) (i : nat) :
  (i < slice_len (length l) s e)%nat ->
  nth_error (py_slice l s e) i =
  nth_error l (Z.to_nat (adjust (zlen l) s) + i).
Proof.
  intros Hi. unfold py_slice, slice_len, zlen in *.
  rewrite nth_error_firstn, nth_error_skipn.
  destruct (Nat.ltb_spec i
    (Z.to_nat (adjust (Z.of_nat (length l)) e - adjust (Z.of_nat (length l)) s)));
    [reflexivity | lia].
Qed.

Lemma get2_slice2_any {A : Type} (a : ndarray A) (x0 x1 y0 y1 : Z) (i j : nat) :
  well_shaped a ->
  (i < slice_len (nrows a) x0 x1)%nat ->
  (j < slice_len (ncols a) y0 y1)%nat ->
  get2 (slice2 a x0 x1 y0 y1) i j =
  get2 a (Z.to_nat (adjust (Z.of_nat (nrows a)) x0) + i)
         (Z.to_nat (adjust (Z.of_nat (ncols a)) y0) + j).
Proof.
  intros Hws Hi Hj. unfold get2, slice2; simpl.
  rewrite nth_error_map, nth_error_py_slice_any by exact Hi.
  fold (nrows a). unfold zlen. fold (nrows a).
  destruct (nth_error (rows a) _) as [r|] eqn:Er; simpl; [| reflexivity].
  apply nth_error_In in Er.
  unfold well_shaped in Hws. rewrite Forall_forall in Hws.
  specialize (Hws r Er).
  rewrite nth_error_py_slice_any by (rewrite Hws; exact Hj).
  unfold zlen. now rewrite Hws.
Qed.

(** Where Python puts the two bounds of [l[s:s+p]] for [s = n//2 - p//2]
    on a sequence of length [n]: inside the sequence when [p <= n]; when
    [n < p] the stop is clipped to [n] and a negative start counts from
    the end. *)
Lemma center_bounds (n p : Z) :
  0 <= n -> 1 <= p ->
  let s := center_start n p in
  let off := if p <=? n then s
             else if n / 2 <? p / 2 then Z.max 0 (n + s) else 0 in
  let ext := if p <=? n then p else n - off in
  adjust n s = off /\ adjust n (s + p) = off + ext /\
  0 <= off /\ 0 <= ext /\ off + ext <= n.
Proof.
  intros Hn Hp s off ext. unfold ext, off, s, center_start, adjust.
  pose proof (Z.div_mod n 2 ltac:(lia)).
  pose proof (Z.div_mod p 2 ltac:(lia)).
  pose proof (Z.mod_pos_bound n 2 ltac:(lia)).
  pose proof (Z.mod_pos_bound p 2 ltac:(lia)).
  destruct (Z.leb_spec p n);
    [| destruct (Z.ltb_spec (n / 2) (p / 2))];
    destruct (Z.ltb_spec (n / 2 - p / 2) 0);
    destruct (Z.ltb_spec (n / 2 - p / 2 + p) 0); lia.
Qed.

(** C4 (as amended): on an array lower or narrower than the patch size
    [center_crop] does not fail.  It returns the Python slice
    [img[startx:startx+P, starty:starty+P]]: along a dimension of size
    [n < P] the stop is clipped to [n] and a negative start counts from
    the end, so the rows from [max(0, n + n//2 - P//2)] on are kept when
    [n//2 < P//2] and all [n] rows otherwise; along a dimension of size
    [n >= P] the [P] rows from [n//2 - P//2] on are kept.  The array that
    comes back does not have shape [(P, P)]. *)
Theorem center_crop_small (self : DataLoader) (img : image) (p : Z) :
  patch_size self = Some p ->
  Z.of_nat (nrows img) < p \/ Z.of_nat (ncols img) < p ->
  let off n := if p <=? n then center_start n p
               else if n / 2 <? p / 2 then Z.max 0 (n + center_start n p)
               else 0 in
  let ext n := if p <=? n then p else n - off n in
  let X := Z.of_nat (nrows img) in
  let Y := Z.of_nat (ncols img) in
  exists r, center_crop self img = Ok r /\
    shape r = (ext X, ext Y) /\
    (well_shaped img ->
     forall i j, Z.of_nat i < ext X -> Z.of_nat j < ext Y ->
       get2 r i j = get2 img (Z.to_nat (off X) + i) (Z.to_nat (off Y) + j)) /\
    (nrows r <= nrows img)%nat /\ (ncols r <= ncols img)%nat /\
    shape r <> (p, p).
Proof.
  intros Hps Hsmall off ext X Y.
  assert (Hp : 1 <= p) by lia.
  destruct (center_bounds X p ltac:(lia) Hp) as (Ax0 & Ax1 & Ox & Ex & Bx).
  destruct (center_bounds Y p ltac:(lia) Hp) as (Ay0 & Ay1 & Oy & Ey & By).
  subst off ext. cbv beta.
  set (oX := if p <=? X then center_start X p
             else if X / 2 <? p / 2 then Z.max 0 (X + center_start X p) else 0) in *.
  set (oY := if p <=? Y then center_start Y p
             else if Y / 2 <? p / 2 then Z.max 0 (Y + center_start Y p) else 0) in *.
  set (eX := if p <=? X then p else X - oX) in *.
  set (eY := if p <=? Y then p else Y - oY) in *.
  assert (Lx : slice_len (nrows img) (center_start X p) (center_start X p + p)
               = Z.to_nat eX).
  { unfold slice_len. fold X. rewrite Ax0, Ax1. f_equal. lia. }
  assert (Ly : slice_len (ncols img) (center_start Y p) (center_start Y p + p)
               = Z.to_nat eY).
  { unfold slice_len. fold Y. rewrite Ay0, Ay1. f_equal. lia. }
  assert (Hshape : shape (slice2 img (center_start X p) (center_start X p + p)
                            (center_start Y p) (center_start Y p + p))
                   = (eX, eY)).
  { rewrite shape_slice2, Lx, Ly. f_equal; lia. }
  eexists. split; [| split; [| split; [| split; [| split]]]].
  - unfold center_crop. rewrite Hps. unfold shape. fold X Y. reflexivity.
  - exact Hshape.
  - intros Hws i j Hi Hj.
    rewrite get2_slice2_any by (try exact Hws; rewrite ?Lx, ?Ly; lia).
    fold X Y. now rewrite Ax0, Ay0.
  - unfold nrows at 1, slice2; simpl.
    rewrite length_map, length_py_slice. apply slice_len_le.
  - apply slice_len_le.
  - rewrite Hshape. intros Heq. injection Heq as H1 H2.
    subst eX eY.
    destruct (Z.leb_spec p X), (Z.leb_spec p Y); lia.
Qed.

(** ** Random crop *)

Lemma shape_eqb_refl (s : Z * Z) : shape_eqb s s = true.
Proof.
  unfold shape_eqb. now rewrite !Z.eqb_refl.
Qed.

Context {RS : RandomSpec R}.

(** C8: on two arrays of one shape [(H, W)] with [H > P] and [W > P],
    [random_crop] draws [x = randint(0, H-P)] and then
    [y = randint(0, W-P)] from the generator, so [x] lies in [[0, H-P)]
    and [y] in [[0, W-P)], and returns the window at offset [(x, y)] of
    both arrays, each of shape [(P, P)], together with the generator
    state after the two draws; with [H <= P] or [W <= P] it fails (the
    [ValueError] of the empty range handed to [randint]). *)
Theorem random_crop_spec (self : DataLoader) (img mask : image) (p : Z) (g : RNG) :
  patch_size self = Some p ->
  0 <= p ->
  shape img = shape mask ->
  well_shaped img -> well_shaped mask ->
  let H := Z.of_nat (nrows img) in
  let W := Z.of_nat (ncols img) in
  (p < H -> p < W ->
     exists x g1 y g',
       np_randint g 0 (H - p) = Ok (x, g1) /\
       np_randint g1 0 (W - p) = Ok (y, g') /\
       0 <= x < H - p /\ 0 <= y < W - p /\
       random_crop self img mask g =
         Ok ((slice2 img x (x + p) y (y + p),
              slice2 mask x (x + p) y (y + p)), g') /\
       shape (slice2 img x (x + p) y (y + p)) = (p, p) /\
       shape (slice2 mask x (x + p) y (y + p)) = (p, p) /\
       forall i j, Z.of_nat i < p -> Z.of_nat j < p ->
         get2 (slice2 img x (x + p) y (y + p)) i j =
           get2 img (Z.to_nat x + i) (Z.to_nat y + j) /\
         get2 (slice2 mask x (x + p) y (y + p)) i j =
           get2 mask (Z.to_nat x + i) (Z.to_nat y + j)) /\
  (H <= p \/ W <= p -> random_crop self img mask g = Err ValueError).
Proof.
  intros Hps Hp Hshape Hwi Hwm H W.
  assert (Hrm : Z.of_nat (nrows mask) = H /\ Z.of_nat (ncols mask) = W).
  { unfold shape in Hshape. injection Hshape as H1 H2. unfold H, W. lia. }
  destruct Hrm as [HrH HcW].
  assert (Hunf : random_crop self img mask g =
                 ('(x, g1) <- np_randint g 0 (H - p) ;;
                  '(y, g2) <- np_randint g1 0 (W - p) ;;
                  Ok ((slice2 img x (x + p) y (y + p),
                       slice2 mask x (x + p) y (y + p)), g2))).
  { unfold random_crop. rewrite Hshape, shape_eqb_refl, Hps. simpl.
    rewrite HrH, HcW. reflexivity. }
  split.
  - intros HH HW.
    destruct (np_randint_range g 0 (H - p) ltac:(lia)) as (x & g1 & Ex & Hx).
    destruct (np_randint_range g1 0 (W - p) ltac:(lia)) as (y & g2 & Ey & Hy).
    exists x, g1, y, g2.
    split; [exact Ex |]. split; [exact Ey |].
    split; [exact Hx |]. split; [exact Hy |].
    split; [rewrite Hunf, Ex; simpl; rewrite Ey; reflexivity |].
    split; [| split].
    + rewrite shape_slice2, !slice_len_inside by (fold H W; lia).
      f_equal; lia.
    + rewrite shape_slice2, !slice_len_inside by lia.
      f_equal; lia.
    + intros i j Hi Hj. split; apply get2_slice2; try assumption; fold H W; lia.
  - intros Hsmall. rewrite Hunf.
    destruct (Z_le_gt_dec H p) as [HH | HH].
    + rewrite (np_randint_empty g 0 (H - p)) by lia. reflexivity.
    + destruct (np_randint_range g 0 (H - p) ltac:(lia)) as (x & g1 & Ex & Hx).
      rewrite Ex. simpl.
      rewrite (np_randint_empty g1 0 (W - p)) by lia. reflexivity.
Qed.

(** ** Epoch boundary *)

Lemma on_epoch_end_perm (self : DataLoader) (g : RNG) (n : nat) :
  is_permutation n (indexes self) ->
  is_permutation n (indexes (fst (on_epoch_end self g))).
Proof.
  intros Hperm. unfold on_epoch_end, is_permutation in *.
  pose proof (np_shuffle_perm g (indexes self)) as Hsh.
  destruct (mode self); try exact Hperm.
  destruct (np_shuffle g (indexes self)) as [ix g']; simpl in *.
  eapply Permutation_trans; [apply Permutation_sym; exact Hsh | exact Hperm].
Qed.

Lemma on_epoch_end_store (self : DataLoader) (g : RNG) :
  ldct (fst (on_epoch_end self g)) = ldct self /\
  ndct (fst (on_epoch_end self g)) = ndct self.
Proof.
  unfold on_epoch_end.
  destruct (mode self); try (split; reflexivity).
  destruct (np_shuffle g (indexes self)); split; reflexivity.
Qed.

(** C9: [on_epoch_end] keeps the index array a permutation of [[0, N)]
    and changes nothing else of the loader.  On a train loader the index
    array becomes what [np.random.shuffle] makes of it, a rearrangement of
    the old one and again a permutation of [[0, N)], the generator moves
    on, and the windows of the following batches are cut from the
    shuffled array; on valid and test loaders nothing changes. *)
Theorem epoch_end_permutation (self : DataLoader) (g : RNG) :
  is_permutation (length (ldct self)) (indexes self) ->
  let self' := fst (on_epoch_end self g) in
  is_permutation (length (ldct self')) (indexes self') /\
  (mode self' = mode self /\ batch_size self' = batch_size self /\
   train_pair self' = train_pair self /\ patch_size self' = patch_size self /\
   input_size self' = input_size self /\
   ldct self' = ldct self /\ ndct self' = ndct self /\ aug self' = aug self) /\
  (mode self = train ->
     on_epoch_end self g =
       (with_indexes self (fst (np_shuffle g (indexes self))),
        snd (np_shuffle g (indexes self))) /\
     indexes self' = fst (np_shuffle g (indexes self)) /\
     snd (on_epoch_end self g) = snd (np_shuffle g (indexes self)) /\
     Permutation (indexes self) (indexes self') /\
     forall idx,
       window self' idx =
       py_slice (fst (np_shuffle g (indexes self)))
                (idx * batch_size self) ((idx + 1) * batch_size self)) /\
  (mode self <> train -> on_epoch_end self g = (self, g)).
Proof.
  intros Hperm self'. split; [| split; [| split]].
  - unfold self'. rewrite (proj1 (on_epoch_end_store self g)).
    now apply on_epoch_end_perm.
  - unfold self', on_epoch_end.
    destruct (mode self) eqn:Em;
      destruct (np_shuffle g (indexes self)); simpl;
      rewrite ?Em; repeat split; reflexivity.
  - intros Hm. pose proof (np_shuffle_perm g (indexes self)) as Hsh.
    unfold self', window, on_epoch_end in *. rewrite Hm.
    destruct (np_shuffle g (indexes self)) as [ix g1]. simpl in *.
    repeat split. exact Hsh.
  - intros Hm. unfold on_epoch_end.
    destruct (mode self); try reflexivity. now elim Hm.
Qed.

(** The constructor establishes the permutation that [on_epoch_end] keeps. *)
Lemma init_permutation m dir vp tp bs tpair ps g self g' :
  __init__ m dir vp tp bs tpair ps g = Ok (self, g') ->
  is_permutation (length (ldct self)) (indexes self).
Proof.
  unfold __init__. intros H.
  apply bind_Ok in H as ([l n] & _ & H).
  apply bind_Ok in H as (isz & _ & H).
  set (self0 := mkLoader m vp tp bs tpair ps l n isz (arange (length l))
                         0%Q 0%Q 0%Q None) in H.
  pose proof (on_epoch_end_perm self0 g (length l)) as Hep.
  pose proof (on_epoch_end_store self0 g) as [Hl _].
  destruct (on_epoch_end self0 g) as [self1 g1].
  injection H as <- <-. simpl in *. rewrite Hl.
  apply Hep. unfold is_permutation. apply Permutation_refl.
Qed.

(** ** Construction *)

(** C3 (as amended): the constructor never compares the two counts.
    Whenever every selected file loads (and a patch size is given), the
    construction succeeds, and the store holds the selected sources and
    the selected targets as loaded, whatever their two lengths are. *)
Theorem construction_unchecked (m : Mode) (data_path : list (npy_file px))
    (vp tp : string) (bs : Z) (tpair : bool) (p : Z) (g : RNG)
    (ls ns : list image) :
  mapM fload (filter (selected m vp tp) (sorted (glob data_path "_ldct.npy"))) = Ok ls ->
  mapM fload (filter (selected m vp tp) (sorted (glob data_path "_ndct.npy"))) = Ok ns ->
  exists self g',
    __init__ m data_path vp tp bs tpair (Some p) g = Ok (self, g') /\
    ldct self = ls /\ ndct self = ns.
Proof.
  intros Hl Hn. unfold __init__, load. rewrite Hl, Hn. simpl.
  set (self0 := mkLoader m vp tp bs tpair (Some p) ls ns (p, p)
                         (arange (length ls)) 0%Q 0%Q 0%Q None).
  pose proof (on_epoch_end_store self0 g) as [H1 H2].
  destruct (on_epoch_end self0 g) as [self1 g1]. simpl in *.
  eexists _, _. split; [reflexivity |]. simpl. split; assumption.
Qed.

(** ** Augmentation parameters *)

Lemma fill_set_params (self : DataLoader) (d e h : Q) ixs :
  forall i bx by_ g,
    fill (set_params self d e h) i ixs bx by_ g = fill self i ixs bx by_ g.
Proof.
  induction ixs as [|j rest IH]; intros i bx by_ g; simpl.
  - reflexivity.
  - change (sample (set_params self d e h) j g) with (sample self j g).
    destruct (sample self j g) as [[dd g1]|err]; simpl; [| reflexivity].
    change (input_size (set_params self d e h)) with (input_size self).
    destruct (assign_row bx (input_size self) i (fst dd)); simpl; [| reflexivity].
    destruct (assign_row by_ (input_size self) i (snd dd)); simpl; [| reflexivity].
    apply IH.
Qed.

(** C1 (as amended): [set_params] only stores the three probabilities; the
    pipeline in use, and with it every batch, stays what it was.  Once
    [get_augmentation] has been called after it, the pipeline is the one
    gated by the new values, and every train-mode sample of the following
    batches runs that pipeline before the random crop. *)
Theorem set_params_needs_get_augmentation (self : DataLoader) (d e h : Q) :
  aug (set_params self d e h) = aug self /\
  (forall idx g,
     __getitem__ (set_params self d e h) idx g = __getitem__ self idx g) /\
  aug (get_augmentation (set_params self d e h)) = Some (pipeline d e h) /\
  (forall j g,
     mode self = train ->
     sample (get_augmentation (set_params self d e h)) j g =
       (l <- py_getitem (ldct self) j ;;
        n <- py_getitem (ndct self) (pair_index (train_pair self) j) ;;
        let (dd, g1) := run_compose (pipeline d e h) g (l, n) in
        random_crop self (fst dd) (snd dd) g1)).
Proof.
  split; [reflexivity |]. split; [| split; [reflexivity |]].
  - intros idx g. unfold __getitem__, getbatch.
    change (window (set_params self d e h) idx) with (window self idx).
    change (batch_size (set_params self d e h)) with (batch_size self).
    change (input_size (set_params self d e h)) with (input_size self).
    destruct (np_zeros (batch_size self) (input_size self)); simpl; [| reflexivity].
    now rewrite fill_set_params.
  - intros j g Hm. unfold sample. simpl. rewrite Hm. simpl. reflexivity.
Qed.

(** ** Batch assembly *)

Lemma setitem_Ok {A : Type} (l : list A) (i : nat) (v : A) (l' : list A) :
  setitem l i v = Ok l' ->
  length l' = length l /\
  forall k, k <> i -> nth_error l' k = nth_error l k.
Proof.
  revert i l'. induction l as [|a l IH]; intros i l' H; simpl in H.
  - discriminate.
  - destruct i as [|i].
    + injection H as <-. split; [reflexivity |].
      intros [|k] Hk; [now elim Hk | reflexivity].
    + apply bind_Ok in H as (l'' & H1 & H2). injection H2 as <-.
      destruct (IH _ _ H1) as [Hlen Hnth]. split; [simpl; now rewrite Hlen |].
      intros [|k] Hk; [reflexivity | simpl; apply Hnth; lia].
Qed.

Lemma setitem_in_range {A : Type} (l : list A) (i : nat) (v : A) :
  (i < length l)%nat -> exists l', setitem l i v = Ok l'.
Proof.
  revert i. induction l as [|a l IH]; intros i Hi; simpl in *.
  - lia.
  - destruct i as [|i]; [eauto |].
    destruct (IH i ltac:(lia)) as [l' ->]. simpl. eauto.
Qed.

Lemma mapM_Err {A B : Type} (f : A -> result B) (E : pyerr -> Prop) (l : list A) :
  (forall a e, f a = Err e -> E e) ->
  forall e, mapM f l = Err e -> E e.
Proof.
  intros Hf. induction l as [|a l IH]; intros e H; simpl in H.
  - discriminate.
  - apply bind_Err in H as [H | (b & _ & H)]; [eauto |].
    apply bind_Err in H as [H | (bs & _ & H)]; [eauto | discriminate].
Qed.

Lemma broadcast_axis_Err {A : Type} (n : nat) (l : list A) (e : pyerr) :
  broadcast_axis n l = Err e -> e = ValueError.
Proof.
  unfold broadcast_axis.
  destruct (Nat.eqb (length l) n); [discriminate |].
  destruct l as [|x [|y l]]; intros H; congruence.
Qed.

Lemma broadcast_to_Err {A : Type} (h w : nat) (a : ndarray A) (e : pyerr) :
  broadcast_to h w a = Err e -> e = ValueError.
Proof.
  unfold broadcast_to.
  destruct (negb _); [congruence |]. intros H.
  apply bind_Err in H as [H | (rs & _ & H)].
  { now apply broadcast_axis_Err in H. }
  apply bind_Err in H as [H | (rs' & _ & H)]; [| discriminate].
  revert H. generalize e.
  apply (mapM_Err (broadcast_axis w) (fun e => e = ValueError)).
  intros r e'. apply broadcast_axis_Err.
Qed.

Lemma assign_row_Err b sz i v e :
  (i < length b)%nat -> assign_row b sz i v = Err e -> e = ValueError.
Proof.
  intros Hi. unfold assign_row.
  destruct (Nat.ltb_spec i (length b)) as [_ | Hge]; [| lia]. intros H.
  apply bind_Err in H as [H | (v' & _ & H)];
    [now apply broadcast_to_Err in H |].
  destruct (setitem_in_range b i (amap as_f32 v') Hi) as [b' Hb'].
  congruence.
Qed.

Lemma assign_row_Ok b sz i v b' :
  assign_row b sz i v = Ok b' ->
  length b' = length b /\
  forall k, k <> i -> nth_error b' k = nth_error b k.
Proof.
  unfold assign_row. destruct (Nat.ltb i (length b)); [| discriminate].
  intros H. apply bind_Ok in H as (v' & _ & H).
  now apply setitem_Ok in H.
Qed.

Lemma py_getitem_in_range {A : Type} (l : list A) (j : Z) :
  0 <= j < zlen l -> exists a, py_getitem l j = Ok a.
Proof.
  intros Hj. unfold py_getitem.
  destruct (Z.ltb_spec j 0); [lia |].
  destruct (Z.ltb_spec j 0); [lia |].
  destruct (Z.leb_spec (zlen l) j); [lia |]. simpl.
  destruct (nth_error l (Z.to_nat j)) eqn:En; [eauto |].
  apply nth_error_None in En. unfold zlen in *. lia.
Qed.

Lemma pair_index_in_range (tpair : bool) (n : Z) (j : Z) :
  0 <= j < n -> tpair = true \/ n <> 1 -> 0 <= pair_index tpair j < n.
Proof.
  intros Hj Hn. unfold pair_index.
  destruct tpair; [lia |].
  destruct Hn as [Hn | Hn]; [discriminate |].
  destruct (Z.eqb_spec j 0); simpl; lia.
Qed.

Lemma np_randint_Err g lo hi e :
  np_randint g lo hi = Err e -> e = ValueError.
Proof.
  intros H. destruct (Z_lt_le_dec lo hi) as [Hlt | Hle].
  - destruct (np_randint_range g lo hi Hlt) as (x & g' & Hx & _). congruence.
  - rewrite (np_randint_empty g lo hi Hle) in H. congruence.
Qed.

Lemma random_crop_Err self img mask g e :
  random_crop self img mask g = Err e -> e <> IndexError.
Proof.
  unfold random_crop.
  destruct (negb _); [congruence |].
  destruct (patch_size self) as [p|]; [| congruence].
  destruct (shape img) as [h w]. intros H.
  apply bind_Err in H as [H | ([x g1] & _ & H)].
  { apply np_randint_Err in H. congruence. }
  apply bind_Err in H as [H | ([y g2] & _ & H)]; [| discriminate].
  apply np_randint_Err in H. congruence.
Qed.

Lemma center_crop_Err self img e :
  center_crop self img = Err e -> e <> IndexError.
Proof.
  unfold center_crop.
  destruct (patch_size self); [| congruence].
  destruct (shape img). discriminate.
Qed.

Lemma sample_Err self j g e :
  aligned self -> 0 <= j < zlen (ldct self) ->
  sample self j g = Err e -> e <> IndexError.
Proof.
  intros (Hlen & _ & Hpair) Hj. unfold sample.
  destruct (py_getitem_in_range (ldct self) j Hj) as [l ->]. simpl.
  assert (Hn : 0 <= pair_index (train_pair self) j < zlen (ndct self)).
  { unfold zlen in *. rewrite Hlen.
    apply pair_index_in_range; [exact Hj |].
    destruct Hpair; [now left | right; lia]. }
  destruct (py_getitem_in_range (ndct self) _ Hn) as [n ->]. simpl.
  destruct (is_train (mode self)).
  - destruct (aug self) as [a|]; [| congruence].
    destruct (run_compose a g (l, n)) as [dd g1].
    apply random_crop_Err.
  - intros H.
    apply bind_Err in H as [H | (l' & _ & H)];
      [now apply center_crop_Err in H |].
    apply bind_Err in H as [H | (n' & _ & H)];
      [now apply center_crop_Err in H | discriminate].
Qed.

Lemma fill_Err self ixs :
  aligned self ->
  Forall (fun j => 0 <= j < zlen (ldct self)) ixs ->
  forall i bx by_ g e,
    (i + length ixs <= length bx)%nat -> length by_ = length bx ->
    fill self i ixs bx by_ g = Err e -> e <> IndexError.
Proof.
  intros Hal Hixs. induction Hixs as [|j rest Hj _ IH];
    intros i bx by_ g e Hi Hby H; simpl in *.
  - discriminate.
  - apply bind_Err in H as [H | ([dd g1] & _ & H)];
      [now apply (sample_Err self j g) |].
    apply bind_Err in H as [H | (bx' & Hbx & H)].
    { apply assign_row_Err in H; [congruence | lia]. }
    apply bind_Err in H as [H | (by' & Hby' & H)].
    { apply assign_row_Err in H; [congruence | lia]. }
    apply assign_row_Ok in Hbx as [Lx _].
    apply assign_row_Ok in Hby' as [Ly _].
    apply (IH (S i) bx' by' g1); [lia | lia | exact H].
Qed.

Lemma fill_Ok self ixs :
  forall i bx by_ g bx' by' g',
    fill self i ixs bx by_ g = Ok ((bx', by'), g') ->
    length bx' = length bx /\ length by' = length by_ /\
    forall k, (k < i \/ i + length ixs <= k)%nat ->
      nth_error bx' k = nth_error bx k /\ nth_error by' k = nth_error by_ k.
Proof.
  induction ixs as [|j rest IH]; intros i bx by_ g bx' by' g' H; simpl in H.
  - injection H as <- <- <-. auto.
  - apply bind_Ok in H as ([dd g1] & _ & H).
    apply bind_Ok in H as (bx1 & Hbx & H).
    apply bind_Ok in H as (by1 & Hby & H).
    apply assign_row_Ok in Hbx as [Lx Nx].
    apply assign_row_Ok in Hby as [Ly Ny].
    apply IH in H as (Lx' & Ly' & Hk).
    split; [lia |]. split; [lia |].
    intros k Hrange. simpl in Hrange.
    destruct (Hk k ltac:(lia)) as [Hx Hy].
    rewrite Hx, Hy, Nx, Ny by lia. auto.
Qed.

Lemma slice_len_step (n : nat) (s b : Z) :
  0 <= b -> (slice_len n s (s + b) <= Z.to_nat b)%nat.
Proof.
  intros Hb. unfold slice_len, adjust.
  destruct (Z.ltb_spec (s + b) 0), (Z.ltb_spec s 0); lia.
Qed.

Lemma window_length (self : DataLoader) (idx : Z) :
  0 <= batch_size self ->
  (length (window self idx) <= Z.to_nat (batch_size self))%nat.
Proof.
  intros HB. unfold window. rewrite length_py_slice.
  replace ((idx + 1) * batch_size self) with (idx * batch_size self + batch_size self)
    by lia.
  now apply slice_len_step.
Qed.

Lemma np_zeros_Ok b sz planes :
  np_zeros b sz = Ok planes ->
  0 <= b /\
  planes = repeat (full zero32 (Z.to_nat (fst sz)) (Z.to_nat (snd sz))) (Z.to_nat b).
Proof.
  unfold np_zeros.
  destruct (Z.ltb_spec b 0) as [Hneg | Hpos]; simpl; [discriminate |].
  destruct (_ || _); [discriminate |].
  intros H. injection H as <-. split; [lia | reflexivity].
Qed.

Lemma np_zeros_Err b sz e : np_zeros b sz = Err e -> e = ValueError.
Proof.
  unfold np_zeros. destruct (_ || _); congruence.
Qed.

Lemma getitem_Err (self : DataLoader) (idx : Z) (g : RNG) (e : pyerr) :
  aligned self -> __getitem__ self idx g = Err e -> e <> IndexError.
Proof.
  intros Hal. unfold __getitem__, getbatch. intros H.
  apply bind_Err in H as [H | (bx & Hbx & H)].
  { apply np_zeros_Err in H. congruence. }
  apply bind_Err in H as [H | (by_ & Hby & H)].
  { apply np_zeros_Err in H. congruence. }
  apply bind_Err in H as [H | ([b g'] & _ & H)]; [| discriminate].
  apply np_zeros_Ok in Hbx as [HB ->]. apply np_zeros_Ok in Hby as [_ ->].
  revert H. apply fill_Err.
  - exact Hal.
  - apply Forall_py_slice. apply Hal.
  - rewrite repeat_length. pose proof (window_length self idx HB). lia.
  - reflexivity.
Qed.

Lemma np_zeros_nonneg b sz :
  0 <= b -> 0 <= fst sz -> 0 <= snd sz ->
  np_zeros b sz =
    Ok (repeat (full zero32 (Z.to_nat (fst sz)) (Z.to_nat (snd sz))) (Z.to_nat b)).
Proof.
  intros Hb H1 H2. unfold np_zeros.
  destruct (Z.ltb_spec b 0); [lia |].
  destruct (Z.ltb_spec (fst sz) 0); [lia |].
  destruct (Z.ltb_spec (snd sz) 0); [lia |]. reflexivity.
Qed.

Lemma window_last (self : DataLoader) :
  0 < batch_size self ->
  let q := zlen (indexes self) / batch_size self in
  window self q = skipn (Z.to_nat (q * batch_size self)) (indexes self).
Proof.
  intros HB q. unfold window, py_slice.
  pose proof (Z.mul_div_le (zlen (indexes self)) _ HB) as Hlo.
  pose proof (Z.mul_succ_div_gt (zlen (indexes self)) _ HB) as Hhi.
  fold q in Hlo, Hhi.
  assert (Hq : 0 <= q) by (apply Z.div_pos; unfold zlen; lia).
  rewrite (adjust_inside _ (q * batch_size self)) by nia.
  unfold adjust. destruct (Z.ltb_spec ((q + 1) * batch_size self) 0); [nia |].
  rewrite Z.min_r by nia.
  apply firstn_all2. rewrite length_skipn. unfold zlen. lia.
Qed.

Lemma window_minus_one (self : DataLoader) :
  0 < batch_size self -> window self (-1) = [].
Proof.
  intros HB. unfold window. apply length_zero_iff_nil.
  rewrite length_py_slice. unfold slice_len.
  pose proof (adjust_range (Z.of_nat (length (indexes self)))
                (-1 * batch_size self) ltac:(lia)).
  replace ((-1 + 1) * batch_size self) with 0 by lia.
  rewrite (adjust_inside _ 0) by lia. lia.
Qed.

Lemma mapM_broadcast_same {A : Type} (w : nat) (rs : list (list A)) :
  Forall (fun r => length r = w) rs -> mapM (broadcast_axis w) rs = Ok rs.
Proof.
  induction 1 as [|r rs Hr _ IH]; simpl.
  - reflexivity.
  - unfold broadcast_axis at 1. rewrite Hr, Nat.eqb_refl. simpl.
    now rewrite IH.
Qed.

Lemma broadcast_to_same {A : Type} (a : ndarray A) :
  well_shaped a -> broadcast_to (nrows a) (ncols a) a = Ok a.
Proof.
  intros Hws. unfold broadcast_to. rewrite Nat.eqb_refl. simpl.
  unfold broadcast_axis at 1. unfold nrows. rewrite Nat.eqb_refl. simpl.
  rewrite mapM_broadcast_same by exact Hws. simpl.
  now destruct a.
Qed.

Lemma center_crop_fits (self : DataLoader) (img : image) (p : Z) :
  patch_size self = Some p -> 0 <= p -> fits p img ->
  exists r, center_crop self img = Ok r /\
    well_shaped r /\ nrows r = Z.to_nat p /\ ncols r = Z.to_nat p.
Proof.
  intros Hps Hp (Hws & Hr & Hc).
  destruct (center_start_fits (Z.of_nat (nrows img)) p Hp Hr) as [Hx0 Hx1].
  destruct (center_start_fits (Z.of_nat (ncols img)) p Hp Hc) as [Hy0 Hy1].
  eexists. split; [| split; [| split]].
  - unfold center_crop. rewrite Hps. unfold shape. reflexivity.
  - now apply well_shaped_slice2.
  - unfold nrows at 1, slice2; simpl.
    rewrite length_map, length_py_slice.
    fold (nrows img). rewrite slice_len_inside by lia. f_equal. lia.
  - unfold slice2; simpl. rewrite slice_len_inside by lia. f_equal. lia.
Qed.

Lemma py_getitem_In {A : Type} (l : list A) (j : Z) (a : A) :
  py_getitem l j = Ok a -> In a l.
Proof.
  unfold py_getitem. destruct (_ || _); [discriminate |].
  destruct (nth_error l _) eqn:En; [| discriminate].
  intros H. injection H as <-. eapply nth_error_In; eassumption.
Qed.

Lemma assign_row_same b sz i (v : image) :
  (i < length b)%nat -> well_shaped v ->
  nrows v = Z.to_nat (fst sz) -> ncols v = Z.to_nat (snd sz) ->
  exists b', assign_row b sz i v = Ok b'.
Proof.
  intros Hi Hws Hr Hc. unfold assign_row.
  destruct (Nat.ltb_spec i (length b)) as [_ | Hge]; [| lia].
  rewrite <- Hr, <- Hc, broadcast_to_same by exact Hws. simpl.
  now apply setitem_in_range.
Qed.

Lemma sample_eval_returns self p j g :
  is_train (mode self) = false -> aligned self -> croppable self p ->
  0 <= j < zlen (ldct self) ->
  exists l' n', sample self j g = Ok ((l', n'), g) /\
    (well_shaped l' /\ nrows l' = Z.to_nat p /\ ncols l' = Z.to_nat p) /\
    (well_shaped n' /\ nrows n' = Z.to_nat p /\ ncols n' = Z.to_nat p).
Proof.
  intros Hm (Hlen & _ & Hpair) (Hps & _ & Hp & Hl & Hn) Hj. unfold sample.
  destruct (py_getitem_in_range (ldct self) j Hj) as [l El]. rewrite El. simpl.
  assert (Hj' : 0 <= pair_index (train_pair self) j < zlen (ndct self)).
  { unfold zlen in *. rewrite Hlen.
    apply pair_index_in_range; [exact Hj |].
    destruct Hpair; [now left | right; lia]. }
  destruct (py_getitem_in_range (ndct self) _ Hj') as [n En]. rewrite En. simpl.
  rewrite Hm.
  apply py_getitem_In in El, En.
  rewrite Forall_forall in Hl, Hn.
  destruct (center_crop_fits self l p Hps Hp (Hl l El)) as (l' & -> & Hl').
  destruct (center_crop_fits self n p Hps Hp (Hn n En)) as (n' & -> & Hn').
  simpl. eauto.
Qed.

Lemma fill_eval_returns self p ixs g :
  is_train (mode self) = false -> aligned self -> croppable self p ->
  Forall (fun j => 0 <= j < zlen (ldct self)) ixs ->
  forall i bx by_,
    (i + length ixs <= length bx)%nat -> length by_ = length bx ->
    exists bx' by', fill self i ixs bx by_ g = Ok ((bx', by'), g).
Proof.
  intros Hm Hal Hcr Hixs.
  induction Hixs as [|j rest Hj _ IH]; intros i bx by_ Hi Hby; simpl in *.
  - eauto.
  - destruct (sample_eval_returns self p j g Hm Hal Hcr Hj)
      as (l' & n' & -> & (Wl & Rl & Cl) & (Wn & Rn & Cn)). simpl.
    destruct Hcr as (_ & Hsz & _).
    destruct (assign_row_same bx (input_size self) i l' ltac:(lia) Wl)
      as [bx1 Ebx]; try (rewrite Hsz; assumption).
    destruct (assign_row_same by_ (input_size self) i n' ltac:(lia) Wn)
      as [by1 Eby]; try (rewrite Hsz; assumption).
    rewrite Ebx. simpl. rewrite Eby. simpl.
    apply assign_row_Ok in Ebx as [Lx _]. apply assign_row_Ok in Eby as [Ly _].
    apply IH; lia.
Qed.

Lemma getitem_eval_returns self p idx g :
  is_train (mode self) = false -> aligned self -> croppable self p ->
  0 <= batch_size self ->
  exists bx by_, __getitem__ self idx g = Ok ((bx, by_), g).
Proof.
  intros Hm Hal Hcr HB. unfold __getitem__, getbatch.
  pose proof Hcr as (_ & Hsz & Hp & _).
  rewrite np_zeros_nonneg by (rewrite ?Hsz; simpl; lia). simpl.
  destruct (fill_eval_returns self p (window self idx) g Hm Hal Hcr)
    with (i := 0%nat)
         (bx := repeat (full zero32 (Z.to_nat (fst (input_size self)))
                          (Z.to_nat (snd (input_size self))))
                       (Z.to_nat (batch_size self)))
         (by_ := repeat (full zero32 (Z.to_nat (fst (input_size self)))
                           (Z.to_nat (snd (input_size self))))
                        (Z.to_nat (batch_size self)))
    as (bx' & by' & ->).
  - apply Forall_py_slice. apply Hal.
  - rewrite repeat_length. pose proof (window_length self idx HB). lia.
  - reflexivity.
  - simpl. eauto.
Qed.

Lemma getitem_padded (self : DataLoader) (idx : Z) (g g' : RNG) (bx by_ : batch) :
  __getitem__ self idx g = Ok ((bx, by_), g') ->
  length bx = Z.to_nat (batch_size self) /\
  length by_ = Z.to_nat (batch_size self) /\
  forall k, (length (window self idx) <= k < Z.to_nat (batch_size self))%nat ->
    nth_error bx k = Some (zero_plane self) /\
    nth_error by_ k = Some (zero_plane self).
Proof.
  intros H. unfold __getitem__, getbatch in H.
  apply bind_Ok in H as (bx0 & Hbx & H).
  apply bind_Ok in H as (by0 & Hby & H).
  apply bind_Ok in H as ([[bx1 by1] g1] & Hfill & H).
  injection H as <- <- <-. simpl.
  apply np_zeros_Ok in Hbx as [HB ->]. apply np_zeros_Ok in Hby as [_ ->].
  apply fill_Ok in Hfill as (Lx & Ly & Hk).
  rewrite repeat_length in Lx, Ly.
  rewrite !length_map. split; [exact Lx |]. split; [exact Ly |].
  intros k Hrange.
  destruct (Hk k ltac:(lia)) as [Hx Hy].
  rewrite !nth_error_map, Hx, Hy, nth_error_repeat by lia.
  split; reflexivity.
Qed.

Lemma getitem_empty_window (self : DataLoader) (idx : Z) (g : RNG) :
  window self idx = [] ->
  0 <= batch_size self ->
  0 <= fst (input_size self) -> 0 <= snd (input_size self) ->
  __getitem__ self idx g =
    Ok ((repeat (zero_plane self) (Z.to_nat (batch_size self)),
         repeat (zero_plane self) (Z.to_nat (batch_size self))), g).
Proof.
  intros Hw HB H1 H2. unfold __getitem__, getbatch. rewrite Hw.
  rewrite np_zeros_nonneg by lia. simpl.
  rewrite map_repeat. reflexivity.
Qed.

(** C2 (as amended): [__getitem__] does not check its position.  On an
    aligned loader no position, in range or not, ends in an [IndexError];
    the window is the clipped Python slice of the index array, which at
    position [batch_count()] is the trailing [N mod B] entries and at
    position [-1] is empty.  A batch that is returned has [batch_size]
    planes on both sides, those past the window all zeros.  The call
    returns the two all-zero batches when the window is empty (position
    [-1]; position [batch_count()] when [B] divides [N]), and in valid
    and test mode it returns at every position when every stored array
    admits the center window. *)
Theorem getitem_no_range_check (self : DataLoader) (idx : Z) (g : RNG) :
  aligned self ->
  length (indexes self) = length (ldct self) ->
  0 < batch_size self ->
  let q := zlen (ldct self) / batch_size self in
  let zeros := repeat (zero_plane self) (Z.to_nat (batch_size self)) in
  __getitem__ self idx g <> Err IndexError /\
  __len__ self = Ok q /\
  window self q = skipn (Z.to_nat (q * batch_size self)) (indexes self) /\
  zlen (window self q) = zlen (ldct self) mod batch_size self /\
  window self (-1) = [] /\
  (forall bx by_ g',
     __getitem__ self idx g = Ok ((bx, by_), g') ->
     length bx = Z.to_nat (batch_size self) /\
     length by_ = Z.to_nat (batch_size self) /\
     forall k, (length (window self idx) <= k < Z.to_nat (batch_size self))%nat ->
       nth_error bx k = Some (zero_plane self) /\
       nth_error by_ k = Some (zero_plane self)) /\
  (0 <= fst (input_size self) -> 0 <= snd (input_size self) ->
     __getitem__ self (-1) g = Ok ((zeros, zeros), g) /\
     (zlen (ldct self) mod batch_size self = 0 ->
      __getitem__ self q g = Ok ((zeros, zeros), g))) /\
  (forall p, is_train (mode self) = false -> croppable self p ->
     exists bx by_, __getitem__ self idx g = Ok ((bx, by_), g)).
Proof.
  intros Hal Hlen HB q zeros.
  assert (Hq : q = zlen (indexes self) / batch_size self)
    by (unfold q, zlen; now rewrite Hlen).
  assert (Hw : window self q =
               skipn (Z.to_nat (q * batch_size self)) (indexes self))
    by (rewrite Hq; now apply window_last).
  assert (Hwl : zlen (window self q) = zlen (ldct self) mod batch_size self).
  { rewrite Hw. unfold zlen at 1. rewrite length_skipn, Hlen.
    pose proof (Z.div_mod (zlen (ldct self)) (batch_size self) ltac:(lia)) as Hdm.
    pose proof (Z.mod_pos_bound (zlen (ldct self)) (batch_size self) HB) as Hmb.
    fold q in Hdm.
    assert (Hq0 : 0 <= q) by (apply Z.div_pos; unfold zlen; lia).
    generalize dependent (zlen (ldct self) mod batch_size self).
    intros r Hdm Hmb.
    assert (HN : Z.of_nat (length (ldct self)) = batch_size self * q + r)
      by exact Hdm.
    nia. }
  split; [| split; [| split; [| split; [| split; [| split; [| split]]]]]].
  - intros H. now apply (getitem_Err self idx g IndexError Hal H).
  - unfold __len__. destruct (Z.eqb_spec (batch_size self) 0); [lia | reflexivity].
  - exact Hw.
  - exact Hwl.
  - now apply window_minus_one.
  - intros bx by_ g'. apply getitem_padded.
  - intros H1 H2. split.
    + apply getitem_empty_window; try assumption; [| lia].
      now apply window_minus_one.
    + intros Hdiv. apply getitem_empty_window; try assumption; [| lia].
      apply length_zero_iff_nil. rewrite Hdiv in Hwl. unfold zlen in Hwl. lia.
  - intros p Hm Hcr. apply (getitem_eval_returns self p); try assumption. lia.
Qed.

(** C10 (as amended): a window shorter than the batch size raises no
    out-of-range error on an aligned loader: there [__getitem__] never
    ends in [IndexError], and a batch it returns has [batch_size] planes on both sides, those
    past the window all zeros.  On an aligned evaluation loader whose
    arrays admit the center window the call does return.  When
    [position * batch_size >= N] the window is empty and the call returns
    the two all-zero batches. *)
Theorem short_window_zero_padded (self : DataLoader) (idx : Z) (g : RNG) :
  (length (window self idx) < Z.to_nat (batch_size self))%nat ->
  (aligned self -> __getitem__ self idx g <> Err IndexError) /\
  (forall bx by_ g',
     __getitem__ self idx g = Ok ((bx, by_), g') ->
     length bx = Z.to_nat (batch_size self) /\
     length by_ = Z.to_nat (batch_size self) /\
     forall k, (length (window self idx) <= k < Z.to_nat (batch_size self))%nat ->
       nth_error bx k = Some (zero_plane self) /\
       nth_error by_ k = Some (zero_plane self)) /\
  (forall p, is_train (mode self) = false -> aligned self -> croppable self p ->
     exists bx by_, __getitem__ self idx g = Ok ((bx, by_), g)) /\
  (length (indexes self) = length (ldct self) ->
   zlen (ldct self) <= idx * batch_size self ->
   0 <= fst (input_size self) -> 0 <= snd (input_size self) ->
   window self idx = [] /\
   __getitem__ self idx g =
     Ok ((repeat (zero_plane self) (Z.to_nat (batch_size self)),
          repeat (zero_plane self) (Z.to_nat (batch_size self))), g)).
Proof.
  intros Hshort. split; [| split; [| split]].
  - intros Hal H. now apply (getitem_Err self idx g IndexError Hal H).
  - intros bx by_ g' H. unfold __getitem__, getbatch in H.
    apply bind_Ok in H as (bx0 & Hbx & H).
    apply bind_Ok in H as (by0 & Hby & H).
    apply bind_Ok in H as ([[bx1 by1] g1] & Hfill & H).
    injection H as <- <- <-. simpl.
    apply np_zeros_Ok in Hbx as [HB ->]. apply np_zeros_Ok in Hby as [_ ->].
    apply fill_Ok in Hfill as (Lx & Ly & Hk).
    rewrite repeat_length in Lx, Ly.
    rewrite !length_map. split; [exact Lx |]. split; [exact Ly |].
    intros k Hrange.
    destruct (Hk k ltac:(lia)) as [Hx Hy].
    rewrite !nth_error_map, Hx, Hy, nth_error_repeat by lia.
    split; reflexivity.
  - intros p Hm Hal Hcr. apply (getitem_eval_returns self p); try assumption. lia.
  - intros Hlen Hpast H1 H2.
    assert (Hw : window self idx = []).
    { apply py_slice_past_end. unfold zlen in *. rewrite Hlen. exact Hpast. }
    split; [exact Hw |].
    unfold __getitem__, getbatch. rewrite Hw.
    rewrite np_zeros_nonneg by lia. simpl.
    rewrite map_repeat. reflexivity.
Qed.

End Facts.

(** * The statements on concrete data *)

#[local] Existing Instances Sim.pixels Sim.random.

Lemma sim_random_spec : RandomSpec Sim.random.
Proof.
  constructor.
  - intros g l. simpl. unfold Sim.shuffle. simpl.
    set (k := Z.to_nat (g mod Z.of_nat (length l))).
    rewrite <- (firstn_skipn k l) at 1. apply Permutation_app_comm.
  - intros g lo hi Hlt. simpl. unfold Sim.randint.
    destruct (Z.ltb_spec lo hi); [| lia].
    eexists _, _. split; [reflexivity |].
    pose proof (Z.mod_pos_bound g (hi - lo) ltac:(lia)). lia.
  - intros g lo hi Hle. simpl. unfold Sim.randint.
    destruct (Z.ltb_spec lo hi); [lia | reflexivity].
Qed.

(** The example loaders are what the constructor builds. *)
Lemma train_loader_built :
  __init__ train Ex.dir "L333" "L506" 1 true (Some 3) 7 =
  Ok (Ex.train_loader, Sim.next 7).
Proof. vm_compute. reflexivity. Qed.

Lemma valid_loader_built :
  __init__ valid Ex.dir "L333" "L506" 1 true (Some 3) 7 = Ok (Ex.valid_loader, 7).
Proof. vm_compute. reflexivity. Qed.

Lemma test_loader_built :
  __init__ test Ex.dir "L333" "L506" 2 true (Some 3) 7 = Ok (Ex.test_loader, 7).
Proof. vm_compute. reflexivity. Qed.

Lemma ramp_well_shaped (base : Z) (k : nat) : well_shaped (Sim.ramp base k).
Proof.
  unfold well_shaped, Sim.ramp; simpl.
  apply Forall_map, Forall_forall. intros i _.
  now rewrite length_map, length_seq.
Qed.

(** ** C1 *)

(** C1, counterexample: on the train loader, [set_params(1, 1, 1)] alone leaves the batch what
    it was, although the pipeline gated by the new values gives another. *)
Lemma set_params_alone_keeps_pipeline :
  mode Ex.train_loader = train /\
  __getitem__ (set_params Ex.train_loader 1 1 1) 0 7 =
    __getitem__ Ex.train_loader 0 7 /\
  __getitem__ (set_params Ex.train_loader 1 1 1) 0 7 <>
    __getitem__ (get_augmentation (set_params Ex.train_loader 1 1 1)) 0 7.
Proof.
  split; [reflexivity |]. split; [reflexivity |].
  vm_compute. intros H. discriminate H.
Qed.

Lemma set_params_needs_get_augmentation_witness :
  mode Ex.train_loader = train /\
  aug (set_params Ex.train_loader 1 1 1) = Some (pipeline 0 0 0) /\
  aug (get_augmentation (set_params Ex.train_loader 1 1 1)) = Some (pipeline 1 1 1) /\
  sample (get_augmentation (set_params Ex.train_loader 1 1 1)) 0 7 =
    (let (dd, g1) := run_compose (pipeline 1 1 1) 7 (Sim.ramp 100 4, Sim.ramp 500 4) in
     random_crop Ex.train_loader (fst dd) (snd dd) g1).
Proof.
  destruct (set_params_needs_get_augmentation Ex.train_loader 1 1 1)
    as (H1 & _ & H3 & H4).
  split; [reflexivity |]. split; [exact H1 |]. split; [exact H3 |].
  exact (H4 0 7 eq_refl).
Defined.

(** ** C2 *)

(** C2, counterexample: the valid loader has one batch; positions 1 and -1
    return all-zero batches instead of failing. *)
Lemma getitem_out_of_range_returns :
  __len__ Ex.valid_loader = Ok 1 /\
  __getitem__ Ex.valid_loader 1 7 = Ok (([Ex.zeros3], [Ex.zeros3]), 7) /\
  __getitem__ Ex.valid_loader (-1) 7 = Ok (([Ex.zeros3], [Ex.zeros3]), 7).
Proof.
  repeat split.
Qed.

Lemma valid_loader_aligned : aligned Ex.valid_loader.
Proof.
  split; [reflexivity |]. split; [| left; reflexivity].
  constructor; [| constructor]. unfold zlen; simpl. lia.
Qed.

Lemma valid_loader_croppable : croppable Ex.valid_loader 3.
Proof.
  split; [reflexivity |]. split; [reflexivity |]. split; [lia |].
  split; (constructor; [| constructor]);
    (split; [apply ramp_well_shaped | simpl; lia]).
Qed.

Lemma getitem_no_range_check_witness :
  aligned Ex.valid_loader /\
  0 < batch_size Ex.valid_loader /\
  __len__ Ex.valid_loader = Ok 1 /\
  __getitem__ Ex.valid_loader 1 7 <> Err IndexError /\
  window Ex.valid_loader 1 = [] /\
  __getitem__ Ex.valid_loader 1 7 = Ok (([Ex.zeros3], [Ex.zeros3]), 7) /\
  __getitem__ Ex.valid_loader (-1) 7 = Ok (([Ex.zeros3], [Ex.zeros3]), 7) /\
  exists bx by_, __getitem__ Ex.valid_loader 0 7 = Ok ((bx, by_), 7).
Proof.
  split; [exact valid_loader_aligned |]. split; [reflexivity |].
  destruct (getitem_no_range_check (RS := sim_random_spec) Ex.valid_loader 1 7
              valid_loader_aligned eq_refl eq_refl)
    as (H1 & H2 & H3 & _ & _ & _ & H7 & _).
  destruct (H7 ltac:(now vm_compute) ltac:(now vm_compute)) as [Hm1 Hq].
  destruct (getitem_no_range_check (RS := sim_random_spec) Ex.valid_loader 0 7
              valid_loader_aligned eq_refl eq_refl)
    as (_ & _ & _ & _ & _ & _ & _ & H8).
  split; [exact H2 |]. split; [exact H1 |]. split; [exact H3 |].
  split; [exact (Hq eq_refl) |]. split; [exact Hm1 |].
  exact (H8 3 eq_refl valid_loader_croppable).
Defined.

(** ** C3 *)

(** C3, counterexample: a directory with two selected sources and one
    selected target; the construction succeeds and the store holds two
    and one. *)
Lemma construction_accepts_mismatch :
  length (filter (selected train "L333" "L506")
            (sorted (glob Ex.dir_missing "_ldct.npy"))) = 2%nat /\
  length (filter (selected train "L333" "L506")
            (sorted (glob Ex.dir_missing "_ndct.npy"))) = 1%nat /\
  match __init__ train Ex.dir_missing "L333" "L506" 1 true (Some 3) 7 with
  | Ok (self, _) => length (ldct self) = 2%nat /\ length (ndct self) = 1%nat
  | Err _ => False
  end.
Proof.
  vm_compute. repeat split.
Qed.

Lemma construction_unchecked_witness :
  exists self g',
    __init__ train Ex.dir_missing "L333" "L506" 1 true (Some 3) 7 = Ok (self, g') /\
    ldct self = [Sim.ramp 100 4; Sim.ramp 200 4] /\
    ndct self = [Sim.ramp 500 4].
Proof.
  apply (construction_unchecked (P := Sim.pixels) (R := Sim.random)
           train Ex.dir_missing "L333" "L506" 1 true 3 7);
    reflexivity.
Defined.

(** ** C4 *)

(** C4, counterexample: a 2 x 2 array under patch size 3; [center_crop]
    hands the whole array back. *)
Lemma center_crop_small_returns :
  shape (Sim.ramp 0 2) = (2, 2) /\
  patch_size Ex.valid_loader = Some 3 /\
  center_crop Ex.valid_loader (Sim.ramp 0 2) = Ok (Sim.ramp 0 2).
Proof.
  repeat split.
Qed.

Lemma center_crop_small_witness :
  Z.of_nat (nrows (Sim.ramp 300 4)) < 10 /\
  exists r, center_crop Ex.big_patch_loader (Sim.ramp 300 4) = Ok r /\
    shape r = (3, 3) /\
    get2 r 0 0 = get2 (Sim.ramp 300 4) 1 1 /\
    get2 r 2 2 = get2 (Sim.ramp 300 4) 3 3 /\
    shape r <> (10, 10).
Proof.
  split; [reflexivity |].
  destruct (center_crop_small Ex.big_patch_loader (Sim.ramp 300 4) 10 eq_refl
              (or_introl eq_refl)) as (r & Hr & Hs & Hget & _ & _ & Hne).
  exists r. split; [exact Hr |]. split; [exact Hs |].
  split; [exact (Hget (ramp_well_shaped 300 4) 0%nat 0%nat eq_refl eq_refl) |].
  split; [exact (Hget (ramp_well_shaped 300 4) 2%nat 2%nat eq_refl eq_refl) |].
  exact Hne.
Defined.

(** ** C5 *)

Lemma pairing_policy_witness :
  pair_index true 0 = 0 /\
  pair_index false 0 = 1 /\
  pair_index false 5 = 4 /\
  sample Ex.valid_loader 0 7 =
    (l' <- center_crop Ex.valid_loader (Sim.ramp 300 4) ;;
     n' <- center_crop Ex.valid_loader (Sim.ramp 700 4) ;;
     Ok ((l', n'), 7)).
Proof.
  destruct (pairing_policy (R := Sim.random) Ex.valid_loader 0 7) as (H1 & _ & H3 & H4 & H5).
  split; [exact H1 |]. split; [exact H3 |]. split; [exact H4 |].
  apply H5; reflexivity.
Defined.

(** ** C6 *)

Lemma batch_count_floor_witness :
  0 < batch_size Ex.seventeen /\
  length (indexes Ex.seventeen) = length (ldct Ex.seventeen) /\
  __len__ Ex.seventeen = Ok 2 /\
  flat_map (fun k => window Ex.seventeen (Z.of_nat k)) (seq 0 2) =
    firstn 16 (indexes Ex.seventeen).
Proof.
  split; [reflexivity |]. split; [reflexivity |].
  destruct (batch_count_floor Ex.seventeen eq_refl eq_refl) as (_ & _ & _ & H).
  apply H; reflexivity.
Defined.

(** ** C7 *)

(** C7, counterexample: a 4 x 4 array under the odd patch size 3; the
    window is in bounds and starts at row 1, while [(X - P)//2] is 0. *)
Lemma center_start_odd_patch_even_size :
  Z.odd 3 = true /\
  center_start 4 3 = 1 /\
  (4 - 3) / 2 = 0 /\
  center_start 4 3 <> (4 - 3) / 2 /\
  center_crop Ex.valid_loader (Sim.ramp 300 4) =
    Ok (mkArr [[311; 312; 313]; [321; 322; 323]; [331; 332; 333]] 3).
Proof.
  repeat split. vm_compute. intros H. discriminate H.
Qed.

Lemma center_crop_window_witness :
  patch_size Ex.valid_loader = Some 3 /\
  (exists r, center_crop Ex.valid_loader (Sim.ramp 300 4) = Ok r /\
     shape r = (3, 3) /\
     forall i j, Z.of_nat i < 3 -> Z.of_nat j < 3 ->
       get2 r i j = get2 (Sim.ramp 300 4) (1 + i) (1 + j)) /\
  4 / 2 - 3 / 2 = (4 - 3) / 2 + 1.
Proof.
  split; [reflexivity |].
  destruct (center_crop_window Ex.valid_loader (Sim.ramp 300 4) 3 eq_refl
              (ramp_well_shaped 300 4) ltac:(now vm_compute)
              ltac:(now vm_compute) ltac:(now vm_compute)
              ltac:(now vm_compute) ltac:(now vm_compute)) as (H1 & _ & H3).
  split; [exact H1 |]. apply H3; reflexivity.
Defined.

(** ** C8 *)

Lemma random_crop_spec_witness :
  random_crop Ex.train_loader (Sim.ramp 100 6) (Sim.ramp 500 6) 7 =
    Ok ((slice2 (Sim.ramp 100 6) 1 (1 + 3) 0 (0 + 3),
         slice2 (Sim.ramp 500 6) 1 (1 + 3) 0 (0 + 3)), Sim.next (Sim.next 7)) /\
  get2 (slice2 (Sim.ramp 100 6) 1 (1 + 3) 0 (0 + 3)) 0 0 = Some 110 /\
  random_crop Ex.train_loader (Sim.ramp 100 3) (Sim.ramp 500 3) 7 = Err ValueError.
Proof.
  split; [| split; [reflexivity |]].
  - destruct (random_crop_spec (RS := sim_random_spec) Ex.train_loader
                (Sim.ramp 100 6) (Sim.ramp 500 6) 3 7 eq_refl
                ltac:(now vm_compute) eq_refl
                (ramp_well_shaped 100 6) (ramp_well_shaped 500 6)) as [Hin _].
    destruct (Hin eq_refl eq_refl) as (x & g1 & y & g' & Ex & Ey & _ & _ & Hrc & _).
    vm_compute in Ex. injection Ex as <- <-.
    vm_compute in Ey. injection Ey as <- <-.
    exact Hrc.
  - destruct (random_crop_spec (RS := sim_random_spec) Ex.train_loader
                (Sim.ramp 100 3) (Sim.ramp 500 3) 3 7 eq_refl
                ltac:(now vm_compute) eq_refl
                (ramp_well_shaped 100 3) (ramp_well_shaped 500 3)) as [_ Hout].
    apply Hout. left. now vm_compute.
Defined.

(** ** C9 *)

Lemma epoch_end_permutation_witness :
  is_permutation 2 (indexes Ex.train_loader) /\
  indexes Ex.train_loader = [1; 0] /\
  indexes (fst (on_epoch_end Ex.train_loader 7)) = [0; 1] /\
  snd (on_epoch_end Ex.train_loader 7) = Sim.next 7 /\
  is_permutation 2 (indexes (fst (on_epoch_end Ex.train_loader 7))) /\
  window (fst (on_epoch_end Ex.train_loader 7)) 0 = [0] /\
  on_epoch_end Ex.valid_loader 7 = (Ex.valid_loader, 7).
Proof.
  assert (Hp : is_permutation 2 (indexes Ex.train_loader)) by apply perm_swap.
  split; [exact Hp |]. split; [reflexivity |].
  destruct (epoch_end_permutation (RS := sim_random_spec) Ex.train_loader 7 Hp)
    as (H1 & _ & H3 & _).
  destruct (H3 eq_refl) as (_ & Hix & Hg & _ & Hw).
  split; [exact Hix |]. split; [exact Hg |]. split; [exact H1 |].
  split; [exact (Hw 0) |].
  assert (Hv : is_permutation 1 (indexes Ex.valid_loader)) by apply Permutation_refl.
  destruct (epoch_end_permutation (RS := sim_random_spec) Ex.valid_loader 7 Hv)
    as (_ & _ & _ & H4).
  apply H4. discriminate.
Defined.

(** ** C10 *)

(** C10, counterexample: the loader built from the directory with a
    missing target, read in batches of three, has a window of two indices
    at position 0, and the call ends in [IndexError]. *)
Lemma short_window_index_error :
  match __init__ train Ex.dir_missing "L333" "L506" 3 true (Some 3) 7 with
  | Ok (self, g) =>
      window self 0 = [1; 0] /\
      (length (window self 0) < Z.to_nat (batch_size self))%nat /\
      __getitem__ self 0 g = Err IndexError
  | Err _ => False
  end.
Proof.
  vm_compute. repeat split. lia.
Qed.

Lemma test_loader_aligned : aligned Ex.test_loader.
Proof.
  split; [reflexivity |]. split; [| left; reflexivity].
  constructor; [| constructor]. unfold zlen; simpl. lia.
Qed.

Lemma test_loader_croppable : croppable Ex.test_loader 3.
Proof.
  split; [reflexivity |]. split; [reflexivity |]. split; [lia |].
  split; (constructor; [| constructor]);
    (split; [apply ramp_well_shaped | simpl; lia]).
Qed.

Lemma short_window_zero_padded_witness :
  (length (window Ex.test_loader 0) < Z.to_nat (batch_size Ex.test_loader))%nat /\
  window Ex.test_loader 0 = [0] /\
  exists bx by_ g',
    __getitem__ Ex.test_loader 0 7 = Ok ((bx, by_), g') /\
    length bx = 2%nat /\ length by_ = 2%nat /\
    nth_error bx 1 = Some Ex.zeros3 /\ nth_error by_ 1 = Some Ex.zeros3.
Proof.
  assert (Hshort : (length (window Ex.test_loader 0) <
                    Z.to_nat (batch_size Ex.test_loader))%nat)
    by (vm_compute; lia).
  split; [exact Hshort |]. split; [reflexivity |].
  destruct (short_window_zero_padded (RS := sim_random_spec) Ex.test_loader 0 7 Hshort)
    as (_ & H2 & H3 & _).
  destruct (H3 3 eq_refl test_loader_aligned test_loader_croppable)
    as (bx & by_ & E).
  destruct (H2 bx by_ 7 E) as (Lx & Ly & Hk).
  destruct (Hk 1%nat ltac:(vm_compute; lia)) as [Hx Hy].
  exists bx, by_, 7.
  split; [exact E |]. split; [exact Lx |]. split; [exact Ly |].
  split; [exact Hx | exact Hy].
Defined.

(** * Further properties of the loader *)

(** ** Selection of files by split *)

Lemma prefix_append (s1 s2 : string) :
  String.prefix s1 s2 = true <-> exists post, s2 = (s1 ++ post)%string.
Proof.
  revert s2. induction s1 as [|a s1 IH]; intros s2.
  - destruct s2; simpl; split; eauto.
  - destruct s2 as [|b s2]; simpl.
    + split; [discriminate | intros [post H]; discriminate].
    + destruct (ascii_dec a b) as [<- | Hne].
      * split.
        -- intros H. apply IH in H as [post ->]. eauto.
        -- intros [post H]. injection H as H. apply IH. eauto.
      * split; [discriminate |].
        intros [post H]. injection H as H _. now elim Hne.
Qed.

Lemma contains_unfold (needle hay : string) :
  contains needle hay =
  String.prefix needle hay ||
  match hay with
  | EmptyString => false
  | String _ hay' => contains needle hay'
  end.
Proof.
  destruct hay; reflexivity.
Qed.

Lemma contains_substring (needle hay : string) :
  contains needle hay = true <->
  exists pre post, hay = (pre ++ needle ++ post)%string.
Proof.
  split.
  - induction hay as [|c hay IH]; rewrite contains_unfold; intros H.
    + rewrite orb_false_r in H. apply prefix_append in H as [post H].
      exists EmptyString, post. exact H.
    + apply orb_true_iff in H as [H | H].
      * apply prefix_append in H as [post H].
        exists EmptyString, post. exact H.
      * destruct (IH H) as (pre & post & ->).
        exists (String c pre), post. reflexivity.
  - intros (pre & post & ->). induction pre as [|c pre IH].
    + rewrite contains_unfold.
      assert (Hp : String.prefix needle (needle ++ post) = true)
        by (apply prefix_append; eauto).
      change (EmptyString ++ needle ++ post)%string with (needle ++ post)%string.
      now rewrite Hp.
    + change (String c pre ++ needle ++ post)%string
        with (String c (pre ++ needle ++ post)).
      rewrite contains_unfold. cbv beta iota.
      rewrite IH. apply orb_true_r.
Qed.

Lemma filter_split {A : Type} (f : A -> bool) (l : list A) :
  Permutation (filter f l ++ filter (fun x => negb (f x)) l) l.
Proof.
  induction l as [|a l IH]; simpl.
  - constructor.
  - destruct (f a); simpl.
    + now constructor.
    + apply Permutation_sym, Permutation_cons_app, Permutation_sym. exact IH.
Qed.

Lemma filter_orb_exclusive {A : Type} (f g : A -> bool) (l : list A) :
  (forall x, In x l -> f x && g x = false) ->
  Permutation (filter (fun x => f x || g x) l) (filter f l ++ filter g l).
Proof.
  induction l as [|a l IH]; intros Hex; simpl.
  - constructor.
  - pose proof (Hex a (or_introl eq_refl)) as Ha.
    assert (IH' := IH (fun x Hx => Hex x (or_intror Hx))).
    destruct (f a), (g a); simpl in *; try discriminate.
    + now constructor.
    + now apply Permutation_cons_app.
    + exact IH'.
Qed.

Lemma mapM_Ok_map {A B : Type} (f : A -> result B) (l : list A) (bs : list B) :
  mapM f l = Ok bs <-> map f l = map Ok bs.
Proof.
  revert bs. induction l as [|a l IH]; intros bs; simpl.
  - split; intros H.
    + now injection H as <-.
    + destruct bs; [reflexivity | discriminate].
  - split; intros H.
    + apply bind_Ok in H as (b & Hb & H).
      apply bind_Ok in H as (bs' & Hbs & H). injection H as <-.
      simpl. rewrite Hb. f_equal. now apply IH.
    + destruct bs as [|b bs]; [discriminate |]. simpl in H.
      injection H as Hb Hbs. rewrite Hb. simpl.
      apply IH in Hbs. rewrite Hbs. reflexivity.
Qed.

Lemma mapM_Ok_all {A B : Type} (f : A -> result B) (l : list A) :
  (exists bs, mapM f l = Ok bs) <-> (forall a, In a l -> exists b, f a = Ok b).
Proof.
  induction l as [|a l IH]; simpl.
  - split; [intros _ a [] | eauto].
  - split.
    + intros [bs H]. apply bind_Ok in H as (b & Hb & H).
      apply bind_Ok in H as (bs' & Hbs & _).
      intros x [<- | Hx]; [eauto |].
      apply (proj1 IH); eauto.
    + intros H. destruct (H a (or_introl eq_refl)) as [b ->]. simpl.
      destruct (proj2 IH (fun x Hx => H x (or_intror Hx))) as [bs ->].
      simpl. eauto.
Qed.

Section Splits.

Context {P : Pixels}.

(** X1: a file is selected for the train split exactly when it is selected
    for neither of the other two, so train and the union of valid and test
    divide any listing; when no name carries both tags the three splits
    divide it. *)
Theorem splits_partition (vp tp : string) (l : list (npy_file px)) :
  Permutation
    (filter (selected train vp tp) l ++
     filter (fun f => selected valid vp tp f || selected test vp tp f) l) l /\
  ((forall f, In f l -> selected valid vp tp f && selected test vp tp f = false) ->
   Permutation
     (filter (selected train vp tp) l ++
      filter (selected valid vp tp) l ++ filter (selected test vp tp) l) l).
Proof.
  assert (Hcompl : Permutation
    (filter (selected train vp tp) l ++
     filter (fun f => selected valid vp tp f || selected test vp tp f) l) l).
  { eapply Permutation_trans; [| apply (filter_split (selected train vp tp))].
    apply Permutation_app_head.
    erewrite filter_ext; [apply Permutation_refl |].
    intros f. simpl. now rewrite negb_andb, !negb_involutive. }
  split; [exact Hcompl |].
  intros Hex. eapply Permutation_trans; [| exact Hcompl].
  apply Permutation_app_head, Permutation_sym.
  now apply filter_orb_exclusive.
Qed.

(** X2: the tag test of [load] is substring containment: a file goes to
    the valid (test) split exactly when its name is some prefix, then the
    tag, then some suffix; it goes to the train split exactly when
    neither tag occurs in its name. *)
Theorem selected_by_substring (vp tp : string) (f : npy_file px) :
  (selected valid vp tp f = true <->
     exists pre post, fname f = (pre ++ vp ++ post)%string) /\
  (selected test vp tp f = true <->
     exists pre post, fname f = (pre ++ tp ++ post)%string) /\
  (selected train vp tp f = true <->
     (forall pre post, fname f <> (pre ++ vp ++ post)%string) /\
     (forall pre post, fname f <> (pre ++ tp ++ post)%string)).
Proof.
  split; [apply contains_substring |]. split; [apply contains_substring |].
  simpl. rewrite andb_true_iff, !negb_true_iff. split.
  - intros [Hv Ht]. split; intros pre post Heq.
    + assert (contains vp (fname f) = true)
        by (apply contains_substring; eauto). congruence.
    + assert (contains tp (fname f) = true)
        by (apply contains_substring; eauto). congruence.
  - intros [Hv Ht]. split.
    + destruct (contains vp (fname f)) eqn:E; [| reflexivity].
      apply contains_substring in E as (pre & post & E). now elim (Hv pre post).
    + destruct (contains tp (fname f)) eqn:E; [| reflexivity].
      apply contains_substring in E as (pre & post & E). now elim (Ht pre post).
Qed.

(** X3: [load] succeeds exactly when every selected file, source or
    target, can be loaded; files of other splits are never read.  On
    success the two lists are the loaded selected files, in listing
    order. *)
Theorem load_succeeds_iff (m : Mode) (vp tp : string)
    (ldct_paths ndct_paths : list (npy_file px)) :
  ((exists r, load m vp tp ldct_paths ndct_paths = Ok r) <->
   (forall f, In f (ldct_paths ++ ndct_paths) ->
      selected m vp tp f = true -> exists a, fload f = Ok a)) /\
  (forall ls ns, load m vp tp ldct_paths ndct_paths = Ok (ls, ns) ->
     map fload (filter (selected m vp tp) ldct_paths) = map Ok ls /\
     map fload (filter (selected m vp tp) ndct_paths) = map Ok ns).
Proof.
  split.
  - unfold load. split.
    + intros [r H]. apply bind_Ok in H as (ls & Hl & H).
      apply bind_Ok in H as (ns & Hn & _).
      intros f Hin Hsel. apply in_app_or in Hin as [Hin | Hin].
      * apply (proj1 (mapM_Ok_all fload _) (ex_intro _ ls Hl)).
        apply filter_In. auto.
      * apply (proj1 (mapM_Ok_all fload _) (ex_intro _ ns Hn)).
        apply filter_In. auto.
    + intros H.
      destruct (proj2 (mapM_Ok_all fload (filter (selected m vp tp) ldct_paths)))
        as [ls ->].
      { intros f Hf. apply filter_In in Hf as [Hin Hsel].
        apply H; [apply in_or_app; now left | exact Hsel]. }
      destruct (proj2 (mapM_Ok_all fload (filter (selected m vp tp) ndct_paths)))
        as [ns ->].
      { intros f Hf. apply filter_In in Hf as [Hin Hsel].
        apply H; [apply in_or_app; now right | exact Hsel]. }
      simpl. eauto.
  - intros ls ns H. unfold load in H.
    apply bind_Ok in H as (ls' & Hl & H).
    apply bind_Ok in H as (ns' & Hn & H). injection H as <- <-.
    split; now apply mapM_Ok_map.
Qed.

End Splits.

(** ** The sorted listings *)

Lemma string_length_append (s1 s2 : string) :
  String.length (s1 ++ s2) = (String.length s1 + String.length s2)%nat.
Proof.
  induction s1 as [|c s1 IH]; simpl; [reflexivity | now rewrite IH].
Qed.

Lemma substring_all (s : string) : substring 0 (String.length s) s = s.
Proof.
  induction s as [|c s IH]; simpl; [reflexivity | now rewrite IH].
Qed.

Lemma substring_suffix (pre suf : string) :
  substring (String.length pre) (String.length suf) (pre ++ suf) = suf.
Proof.
  induction pre as [|c pre IH]; simpl; [apply substring_all | exact IH].
Qed.

Lemma substring_cut (n : nat) (s : string) :
  (n <= String.length s)%nat ->
  s = (substring 0 n s ++ substring n (String.length s - n) s)%string.
Proof.
  revert s. induction n as [|n IH]; intros s Hn.
  - rewrite Nat.sub_0_r, substring_all. destruct s; reflexivity.
  - destruct s as [|c s]; simpl in *; [lia |].
    f_equal. apply IH. lia.
Qed.

Lemma ends_with_suffix (suffix name : string) :
  ends_with suffix name = true <-> exists pre, name = (pre ++ suffix)%string.
Proof.
  unfold ends_with. rewrite andb_true_iff, Nat.leb_le, String.eqb_eq. split.
  - intros [Hle Hsub].
    exists (substring 0 (String.length name - String.length suffix) name).
    pose proof (substring_cut (String.length name - String.length suffix) name
                  ltac:(lia)) as Hcut.
    replace (String.length name - (String.length name - String.length suffix))%nat
      with (String.length suffix) in Hcut by lia.
    rewrite Hsub in Hcut. exact Hcut.
  - intros [pre ->]. rewrite string_length_append. split; [lia |].
    replace (String.length pre + String.length suffix - String.length suffix)%nat
      with (String.length pre) by lia.
    apply substring_suffix.
Qed.

Section Listing.

Context {px : Type}.

Lemma insert_by_name_perm (f : npy_file px) (l : list (npy_file px)) :
  Permutation (insert_by_name f l) (f :: l).
Proof.
  induction l as [|a l IH]; simpl.
  - apply Permutation_refl.
  - destruct (String.leb (fname f) (fname a)).
    + apply Permutation_refl.
    + eapply Permutation_trans; [apply perm_skip, IH | apply perm_swap].
Qed.

Lemma insert_by_name_sorted (f : npy_file px) (l : list (npy_file px)) :
  Sorted name_le l -> Sorted name_le (insert_by_name f l).
Proof.
  induction 1 as [|a l Hs IH Hhd]; simpl.
  - repeat constructor.
  - destruct (String.leb (fname f) (fname a)) eqn:E.
    + constructor; [now constructor | now constructor].
    + constructor; [exact IH |].
      assert (Haf : name_le a f).
      { unfold name_le. destruct (String.leb_total (fname a) (fname f)); congruence. }
      destruct l as [|b l]; simpl.
      * now constructor.
      * destruct (String.leb (fname f) (fname b)); constructor;
          [exact Haf | now inversion Hhd].
Qed.

Lemma sorted_perm (l : list (npy_file px)) : Permutation (sorted l) l.
Proof.
  induction l as [|a l IH]; simpl.
  - constructor.
  - eapply Permutation_trans; [apply insert_by_name_perm | now constructor].
Qed.

(** X4: the paths handed to [load] are the directory entries whose name
    ends in the role suffix, each as often as it is listed, in ascending
    order of file name. *)
Theorem paths_sorted (dir : list (npy_file px)) (suffix : string) :
  Permutation (sorted (glob dir suffix)) (glob dir suffix) /\
  Sorted name_le (sorted (glob dir suffix)) /\
  (forall f, In f (sorted (glob dir suffix)) <->
     In f dir /\ exists pre, fname f = (pre ++ suffix)%string).
Proof.
  split; [apply sorted_perm |]. split.
  - unfold sorted. induction (glob dir suffix) as [|a l IH]; simpl.
    + constructor.
    + now apply insert_by_name_sorted.
  - intros f. split.
    + intros Hin. apply (Permutation_in _ (sorted_perm _)) in Hin.
      unfold glob in Hin. apply filter_In in Hin as [Hin He].
      split; [exact Hin | now apply ends_with_suffix].
    + intros [Hin Hsuf].
      apply (Permutation_in _ (Permutation_sym (sorted_perm _))).
      unfold glob. apply filter_In. split; [exact Hin |].
      now apply ends_with_suffix.
Qed.

End Listing.

(** ** The constructed loader *)

Lemma arange_range (n : nat) (j : Z) : In j (arange n) <-> 0 <= j < Z.of_nat n.
Proof.
  unfold arange. rewrite in_map_iff. split.
  - intros (k & <- & Hk). apply in_seq in Hk. lia.
  - intros Hj. exists (Z.to_nat j). split; [lia |]. apply in_seq. lia.
Qed.

Lemma arange_NoDup (n : nat) : NoDup (arange n).
Proof.
  unfold arange. apply Finite.Injective_map_NoDup.
  - intros a b. lia.
  - apply seq_NoDup.
Qed.

Lemma length_arange (n : nat) : length (arange n) = n.
Proof.
  unfold arange. now rewrite length_map, length_seq.
Qed.

Lemma py_getitem_nth {A : Type} (l : list A) (j : Z) (a : A) :
  0 <= j -> py_getitem l j = Ok a -> nth_error l (Z.to_nat j) = Some a.
Proof.
  intros Hj. unfold py_getitem.
  destruct (Z.ltb_spec j 0) as [Hneg | _]; [lia |].
  destruct (_ || _); [discriminate |].
  destruct (nth_error l (Z.to_nat j)); [congruence | discriminate].
Qed.

Section Construction.

Context {P : Pixels} {R : Random} {RS : RandomSpec R}.

Lemma permutation_in_range (n : nat) (l : list Z) :
  is_permutation n l -> Forall (fun j => 0 <= j < Z.of_nat n) l.
Proof.
  intros Hp. apply Forall_forall. intros j Hj.
  apply arange_range. eapply Permutation_in; eassumption.
Qed.

Lemma on_epoch_end_fields (self : DataLoader) (g : RNG) :
  exists ix,
    fst (on_epoch_end self g) = with_indexes self ix /\
    Permutation (indexes self) ix /\
    (mode self <> train -> ix = indexes self /\ snd (on_epoch_end self g) = g).
Proof.
  unfold on_epoch_end.
  pose proof (np_shuffle_perm g (indexes self)) as Hsh.
  destruct (mode self) eqn:Em.
  - destruct (np_shuffle g (indexes self)) as [ix g1]. exists ix.
    split; [reflexivity |]. split; [exact Hsh |]. intros Hne. now elim Hne.
  - exists (indexes self). split; [now destruct self |].
    split; [apply Permutation_refl | auto].
  - exists (indexes self). split; [now destruct self |].
    split; [apply Permutation_refl | auto].
Qed.

(** X5: what a successful construction leaves behind.  The configuration
    is stored as given; the three probabilities are 0 and the pipeline is
    the one gated by them; the index array is a permutation of [[0, N)]
    and, outside train mode, the identity, with the generator untouched;
    the working size is [(p, p)] for patch size [p], else the shape of
    the first source.  With equal counts the loader is aligned. *)
Theorem init_state (m : Mode) (data_path : list (npy_file px)) (vp tp : string)
    (bs : Z) (tpair : bool) (ps : option Z) (g : RNG)
    (self : DataLoader) (g' : RNG) :
  __init__ m data_path vp tp bs tpair ps g = Ok (self, g') ->
  (mode self = m /\ valid_patient self = vp /\ test_patient self = tp /\
   batch_size self = bs /\ train_pair self = tpair /\ patch_size self = ps) /\
  (prob_distort self = 0%Q /\ prob_elastic self = 0%Q /\ prob_histeq self = 0%Q /\
   aug self = Some (pipeline 0 0 0)) /\
  is_permutation (length (ldct self)) (indexes self) /\
  length (indexes self) = length (ldct self) /\
  (m <> train -> indexes self = arange (length (ldct self)) /\ g' = g) /\
  (forall p, ps = Some p -> input_size self = (p, p)) /\
  (ps = None ->
     exists a, nth_error (ldct self) 0 = Some a /\ input_size self = shape a) /\
  (length (ndct self) = length (ldct self) ->
   tpair = true \/ length (ldct self) <> 1%nat -> aligned self).
Proof.
  unfold __init__. intros H.
  apply bind_Ok in H as ([l n] & _ & H).
  apply bind_Ok in H as (isz & Hisz & H).
  set (self0 := mkLoader m vp tp bs tpair ps l n isz (arange (length l))
                         0%Q 0%Q 0%Q None) in H.
  destruct (on_epoch_end_fields self0 g) as (ix & Hfst & Hperm & Heval).
  destruct (on_epoch_end self0 g) as [self1 g1]. simpl in Hfst, Heval.
  subst self1. injection H as <- <-. simpl.
  assert (Hp : is_permutation (length l) ix).
  { unfold is_permutation. now apply Permutation_sym. }
  assert (Hlen : length ix = length l).
  { rewrite <- (Permutation_length Hperm). apply length_arange. }
  split; [repeat split |]. split; [repeat split |].
  split; [exact Hp |]. split; [exact Hlen |].
  split; [exact Heval |]. split; [| split].
  - intros p ->. simpl in Hisz. now injection Hisz as <-.
  - intros ->. simpl in Hisz. apply bind_Ok in Hisz as (a & Ha & Hs).
    injection Hs as <-. exists a. split; [| reflexivity].
    apply (py_getitem_nth l 0 a); [lia | exact Ha].
  - intros Hn Hpair. unfold aligned; simpl.
    split; [exact Hn |]. split; [| exact Hpair].
    now apply permutation_in_range.
Qed.

(** X6: the constructor fails in two ways only.  An exception of [load]
    is passed on; and with [patch_size=None] the working size is read
    from the first source, so a split that selects no source file raises
    [IndexError].  In every other case the construction succeeds and the
    store holds what [load] returned. *)
Theorem init_outcome (m : Mode) (data_path : list (npy_file px))
    (vp tp : string) (bs : Z) (tpair : bool) (ps : option Z) (g : RNG) :
  let loaded := load m vp tp (sorted (glob data_path "_ldct.npy"))
                              (sorted (glob data_path "_ndct.npy")) in
  (forall e, loaded = Err e ->
     __init__ m data_path vp tp bs tpair ps g = Err e) /\
  (forall ns, loaded = Ok ([], ns) -> ps = None ->
     __init__ m data_path vp tp bs tpair ps g = Err IndexError) /\
  (forall ls ns, loaded = Ok (ls, ns) -> ps <> None \/ ls <> [] ->
     exists self g',
       __init__ m data_path vp tp bs tpair ps g = Ok (self, g') /\
       ldct self = ls /\ ndct self = ns).
Proof.
  intros loaded. unfold __init__. fold loaded. split; [| split].
  - intros e ->. reflexivity.
  - intros ns -> ->. reflexivity.
  - intros ls ns -> Hcase. cbn [bind].
    assert (Hisz : exists isz,
              match ps with
              | Some p => Ok (p, p)
              | None => a <- py_getitem ls 0 ;; Ok (shape a)
              end = Ok isz).
    { destruct ps as [p|]; [eauto |].
      destruct Hcase as [Hps | Hls]; [now elim Hps |].
      destruct (py_getitem_in_range ls 0) as [a ->].
      - unfold zlen. destruct ls; [now elim Hls | simpl; lia].
      - simpl. eauto. }
    destruct Hisz as [isz ->]. cbn [bind].
    set (self0 := mkLoader m vp tp bs tpair ps ls ns isz (arange (length ls))
                           0%Q 0%Q 0%Q None).
    pose proof (on_epoch_end_store self0 g) as [H1 H2].
    destruct (on_epoch_end self0 g) as [self1 g1]. simpl in *.
    eexists _, _. split; [reflexivity |]. simpl. split; assumption.
Qed.

End Construction.

(** ** Windows of the index array *)

Lemma NoDup_app_disjoint {A : Type} (l1 l2 : list A) (x : A) :
  NoDup (l1 ++ l2) -> In x l1 -> In x l2 -> False.
Proof.
  induction l1 as [|a l1 IH]; simpl; intros Hnd H1 H2.
  - exact H1.
  - apply NoDup_cons_iff in Hnd as [Hna Hnd]. destruct H1 as [<- | H1].
    + apply Hna, in_or_app. now right.
    + now apply IH.
Qed.

Section Windows.

Context {P : Pixels}.

Lemma len_positive (self : DataLoader) (q k : Z) :
  __len__ self = Ok q -> 0 <= k < q ->
  0 < batch_size self /\ (k + 1) * batch_size self <= zlen (ldct self).
Proof.
  unfold __len__. destruct (Z.eqb_spec (batch_size self) 0) as [|Hne];
    [discriminate |].
  intros H Hk. injection H as <-.
  assert (HN : 0 <= zlen (ldct self)) by (unfold zlen; lia).
  destruct (Z_lt_le_dec 0 (batch_size self)) as [Hpos | Hneg].
  - split; [exact Hpos |].
    pose proof (Z.mul_div_le (zlen (ldct self)) _ Hpos). nia.
  - exfalso.
    pose proof (Z.div_mod (zlen (ldct self)) (batch_size self) Hne).
    pose proof (Z.mod_neg_bound (zlen (ldct self)) (batch_size self) ltac:(lia)).
    nia.
Qed.

(** X7: every position below [__len__] gets a full window: exactly
    [batch_size] consecutive entries of the index array, starting at
    [position * batch_size]. *)
Theorem window_in_range (self : DataLoader) (q k : Z) :
  __len__ self = Ok q ->
  0 <= k < q ->
  length (indexes self) = length (ldct self) ->
  length (window self k) = Z.to_nat (batch_size self) /\
  forall i, (i < Z.to_nat (batch_size self))%nat ->
    nth_error (window self k) i =
    nth_error (indexes self) (Z.to_nat (k * batch_size self) + i).
Proof.
  intros Hq Hk Hlen.
  destruct (len_positive self q k Hq Hk) as [HB Hfit].
  assert (Hfit' : (k + 1) * batch_size self <= zlen (indexes self))
    by (unfold zlen in *; now rewrite Hlen).
  split.
  - unfold window. rewrite length_py_slice, slice_len_inside; [f_equal |..];
      unfold zlen in *; nia.
  - intros i Hi. unfold window. apply nth_error_py_slice; nia.
Qed.

(** X8: negative positions count batches from the end of the index array:
    for [k >= 2] with [k * batch_size <= N], position [-k] yields the
    [batch_size] entries that start [k * batch_size] before the end. *)
Theorem window_negative (self : DataLoader) (k : Z) :
  0 < batch_size self ->
  2 <= k ->
  k * batch_size self <= zlen (indexes self) ->
  window self (- k) =
    firstn (Z.to_nat (batch_size self))
      (skipn (Z.to_nat (zlen (indexes self) - k * batch_size self)) (indexes self)) /\
  length (window self (- k)) = Z.to_nat (batch_size self).
Proof.
  intros HB Hk Hfit.
  assert (Hw : window self (- k) =
    firstn (Z.to_nat (batch_size self))
      (skipn (Z.to_nat (zlen (indexes self) - k * batch_size self)) (indexes self))).
  { unfold window, py_slice, adjust.
    destruct (Z.ltb_spec (- k * batch_size self) 0); [| nia].
    destruct (Z.ltb_spec ((- k + 1) * batch_size self) 0); [| nia].
    f_equal; [| f_equal]; nia. }
  split; [exact Hw |].
  rewrite Hw, length_firstn, length_skipn. unfold zlen in *. nia.
Qed.

(** X9: one pass over positions [0 .. q-1] of a loader whose index array
    is a permutation of [[0, N)] draws [q * batch_size] sample indices,
    all distinct and all inside the store; the entries of the index array
    past them are not drawn. *)
Theorem epoch_draws_distinct (self : DataLoader) :
  0 < batch_size self ->
  is_permutation (length (ldct self)) (indexes self) ->
  let q := zlen (ldct self) / batch_size self in
  let drawn := flat_map (fun k => window self (Z.of_nat k)) (seq 0 (Z.to_nat q)) in
  NoDup drawn /\
  length drawn = Z.to_nat (q * batch_size self) /\
  Forall (fun j => 0 <= j < zlen (ldct self)) drawn /\
  (forall j, In j (skipn (Z.to_nat (q * batch_size self)) (indexes self)) ->
     ~ In j drawn).
Proof.
  intros HB Hperm q drawn.
  assert (Hlen : length (indexes self) = length (ldct self)).
  { rewrite (Permutation_length Hperm). apply length_arange. }
  assert (HN : 0 <= zlen (ldct self)) by (unfold zlen; lia).
  assert (Hq : 0 <= q) by (apply Z.div_pos; lia).
  pose proof (Z.mul_div_le (zlen (ldct self)) _ HB) as Hfloor. fold q in Hfloor.
  assert (Hdrawn : drawn = firstn (Z.to_nat (q * batch_size self)) (indexes self)).
  { unfold drawn. rewrite windows_prefix.
    - now rewrite Z2Nat.id by lia.
    - lia.
    - rewrite Z2Nat.id by lia. unfold zlen in *. rewrite Hlen. lia. }
  assert (Hnd : NoDup (indexes self)).
  { eapply Permutation_NoDup; [apply Permutation_sym; exact Hperm |].
    apply arange_NoDup. }
  rewrite <- (firstn_skipn (Z.to_nat (q * batch_size self)) (indexes self)) in Hnd.
  rewrite Hdrawn. split; [| split; [| split]].
  - eapply NoDup_app_remove_r. exact Hnd.
  - rewrite length_firstn. unfold zlen in *. nia.
  - apply Forall_forall. intros j Hj.
    assert (Hin : In j (indexes self)).
    { rewrite <- (firstn_skipn (Z.to_nat (q * batch_size self))).
      apply in_or_app. now left. }
    apply (Permutation_in _ Hperm), arange_range in Hin. exact Hin.
  - intros j Hj Hd. exact (NoDup_app_disjoint _ _ j Hnd Hd Hj).
Qed.

End Windows.

(** ** Evaluation batches *)

Lemma setitem_at {A : Type} (l : list A) (i : nat) (v : A) :
  (i < length l)%nat ->
  exists l', setitem l i v = Ok l' /\ nth_error l' i = Some v.
Proof.
  revert i. induction l as [|a l IH]; intros i Hi; simpl in *.
  - lia.
  - destruct i as [|i]; [eauto |].
    destruct (IH i ltac:(lia)) as (l' & -> & Hnth). simpl. eauto.
Qed.

Section EvalBatches.

Context {P : Pixels} {R : Random}.

Lemma center_crop_eq (self : DataLoader) (a : image) (p : Z) :
  patch_size self = Some p -> center_crop self a = Ok (center_window p a).
Proof.
  intros Hps. unfold center_crop, center_window. now rewrite Hps.
Qed.

Lemma sample_eval_fixed (self : DataLoader) (j : Z) :
  is_train (mode self) = false ->
  exists r : result (image * image),
    forall g, sample self j g =
              match r with Ok d => Ok (d, g) | Err e => Err e end.
Proof.
  intros Hm. unfold sample. rewrite Hm.
  destruct (py_getitem (ldct self) j) as [l|e]; simpl;
    [| exists (Err e); reflexivity].
  destruct (py_getitem (ndct self) _) as [n|e]; simpl;
    [| exists (Err e); reflexivity].
  destruct (center_crop self l) as [l'|e]; simpl;
    [| exists (Err e); reflexivity].
  destruct (center_crop self n) as [n'|e]; simpl;
    [| exists (Err e); reflexivity].
  exists (Ok (l', n')). reflexivity.
Qed.

Lemma fill_eval_fixed (self : DataLoader) (ixs : list Z) :
  is_train (mode self) = false ->
  forall i bx by_,
  exists r : result (list (ndarray f32) * list (ndarray f32)),
    forall g, fill self i ixs bx by_ g =
              match r with Ok b => Ok (b, g) | Err e => Err e end.
Proof.
  intros Hm. induction ixs as [|j rest IH]; intros i bx by_; simpl.
  - exists (Ok (bx, by_)). reflexivity.
  - destruct (sample_eval_fixed self j Hm) as [[d|e] Hs].
    + destruct (assign_row bx (input_size self) i (fst d)) as [bx'|e] eqn:Ex.
      * destruct (assign_row by_ (input_size self) i (snd d)) as [by'|e] eqn:Ey.
        -- destruct (IH (S i) bx' by') as [r Hr]. exists r.
           intros g. rewrite Hs. simpl. rewrite Ex. simpl. rewrite Ey. simpl.
           apply Hr.
        -- exists (Err e). intros g. rewrite Hs. simpl. rewrite Ex. simpl.
           rewrite Ey. reflexivity.
      * exists (Err e). intros g. rewrite Hs. simpl. rewrite Ex. reflexivity.
    + exists (Err e). intros g. rewrite Hs. reflexivity.
Qed.

(** X10: in valid and test mode a batch neither depends on the random
    generator nor advances it: the call gives one outcome, whatever the
    generator state, and hands that state back unchanged. *)
Theorem eval_ignores_generator (self : DataLoader) (idx : Z) :
  is_train (mode self) = false ->
  exists r : result (batch * batch),
    forall g, __getitem__ self idx g =
              match r with Ok b => Ok (b, g) | Err e => Err e end.
Proof.
  intros Hm. unfold __getitem__, getbatch.
  destruct (np_zeros (batch_size self) (input_size self)) as [z|e]; simpl;
    [| exists (Err e); reflexivity].
  destruct (fill_eval_fixed self (window self idx) Hm 0%nat z z) as [[b|e] Hr].
  - exists (Ok (map newaxis (fst b), map newaxis (snd b))).
    intros g. rewrite Hr. reflexivity.
  - exists (Err e). intros g. rewrite Hr. reflexivity.
Qed.

Lemma assign_row_at b sz i (v : image) :
  (i < length b)%nat -> well_shaped v ->
  nrows v = Z.to_nat (fst sz) -> ncols v = Z.to_nat (snd sz) ->
  exists b', assign_row b sz i v = Ok b' /\
             nth_error b' i = Some (amap as_f32 v).
Proof.
  intros Hi Hws Hr Hc. unfold assign_row.
  destruct (Nat.ltb_spec i (length b)) as [_ | Hge]; [| lia].
  rewrite <- Hr, <- Hc, broadcast_to_same by exact Hws. simpl.
  now apply setitem_at.
Qed.

Lemma fill_eval_content self p ixs g :
  is_train (mode self) = false -> aligned self -> croppable self p ->
  Forall (fun j => 0 <= j < zlen (ldct self)) ixs ->
  forall i bx by_,
    (i + length ixs <= length bx)%nat -> length by_ = length bx ->
    exists bx' by',
      fill self i ixs bx by_ g = Ok ((bx', by'), g) /\
      forall k j, nth_error ixs k = Some j ->
        exists l n,
          nth_error (ldct self) (Z.to_nat j) = Some l /\
          nth_error (ndct self) (Z.to_nat (pair_index (train_pair self) j)) = Some n /\
          nth_error bx' (i + k) = Some (amap as_f32 (center_window p l)) /\
          nth_error by' (i + k) = Some (amap as_f32 (center_window p n)).
Proof.
  intros Hm Hal Hcr Hixs.
  induction Hixs as [|j rest Hj _ IH]; intros i bx by_ Hi Hby.
  - exists bx, by_. split; [reflexivity |]. intros [|k] j0 H; discriminate H.
  - simpl in Hi.
    pose proof Hal as (Hlen & _ & Hpair).
    pose proof Hcr as (Hps & Hsz & Hp & Hl & Hn).
    destruct (py_getitem_in_range (ldct self) j Hj) as [l El].
    assert (Hj' : 0 <= pair_index (train_pair self) j < zlen (ndct self)).
    { unfold zlen in *. rewrite Hlen.
      apply pair_index_in_range; [exact Hj |].
      destruct Hpair; [now left | right; lia]. }
    destruct (py_getitem_in_range (ndct self) _ Hj') as [n En].
    assert (Hs : sample self j g =
                 Ok ((center_window p l, center_window p n), g)).
    { unfold sample. rewrite El, En. simpl. rewrite Hm.
      rewrite !(center_crop_eq self _ p Hps). reflexivity. }
    rewrite Forall_forall in Hl, Hn.
    destruct (center_crop_fits self l p Hps Hp (Hl l (py_getitem_In _ _ _ El)))
      as (l' & Hl' & Wl & Rl & Cl).
    destruct (center_crop_fits self n p Hps Hp (Hn n (py_getitem_In _ _ _ En)))
      as (n' & Hn' & Wn & Rn & Cn).
    rewrite (center_crop_eq self l p Hps) in Hl'.
    rewrite (center_crop_eq self n p Hps) in Hn'.
    injection Hl' as <-. injection Hn' as <-.
    destruct (assign_row_at bx (input_size self) i (center_window p l)
                ltac:(lia) Wl) as (bx1 & Ebx & Nbx);
      try (rewrite Hsz; assumption).
    destruct (assign_row_at by_ (input_size self) i (center_window p n)
                ltac:(lia) Wn) as (by1 & Eby & Nby);
      try (rewrite Hsz; assumption).
    pose proof (assign_row_Ok _ _ _ _ _ Ebx) as [Lx _].
    pose proof (assign_row_Ok _ _ _ _ _ Eby) as [Ly _].
    destruct (IH (S i) bx1 by1 ltac:(lia) ltac:(lia)) as (bx' & by' & Hfill & Hrest).
    exists bx', by'. split.
    + simpl. rewrite Hs. simpl. rewrite Ebx. simpl. rewrite Eby. simpl.
      exact Hfill.
    + intros [|k] j0 Hk; simpl in Hk.
      * injection Hk as <-. exists l, n.
        destruct (fill_Ok _ _ _ _ _ _ _ _ _ Hfill) as (_ & _ & Hkeep).
        destruct (Hkeep i ltac:(lia)) as [Kx Ky].
        rewrite Nat.add_0_r, Kx, Ky.
        split; [apply py_getitem_nth; [lia | exact El] |].
        split; [apply py_getitem_nth; [lia | exact En] |]. auto.
      * destruct (Hrest k j0 Hk) as (l0 & n0 & H1 & H2 & H3 & H4).
        exists l0, n0. rewrite Nat.add_succ_r. auto.
Qed.

(** X11: in valid and test mode, on an aligned loader whose arrays admit
    the center window, every position returns a batch; plane [i] of the
    source batch is the center window of the source at the [i]-th index of
    the window, converted to [float32] with a trailing unit axis, and
    plane [i] of the target batch is the same for the target at the paired
    index. *)
Theorem eval_batch_content (self : DataLoader) (p idx : Z) (g : RNG) :
  is_train (mode self) = false -> aligned self -> croppable self p ->
  0 <= batch_size self ->
  exists bx by_,
    __getitem__ self idx g = Ok ((bx, by_), g) /\
    forall i j, nth_error (window self idx) i = Some j ->
      exists l n,
        nth_error (ldct self) (Z.to_nat j) = Some l /\
        nth_error (ndct self) (Z.to_nat (pair_index (train_pair self) j)) = Some n /\
        nth_error bx i = Some (plane_of (center_window p l)) /\
        nth_error by_ i = Some (plane_of (center_window p n)).
Proof.
  intros Hm Hal Hcr HB. unfold __getitem__, getbatch.
  pose proof Hcr as (_ & Hsz & Hp & _).
  rewrite np_zeros_nonneg by (rewrite ?Hsz; simpl; lia). simpl.
  set (z := repeat (full zero32 (Z.to_nat (fst (input_size self)))
                      (Z.to_nat (snd (input_size self))))
                   (Z.to_nat (batch_size self))).
  destruct (fill_eval_content self p (window self idx) g Hm Hal Hcr)
    with (i := 0%nat) (bx := z) (by_ := z) as (bx' & by' & Hfill & Hrows).
  - apply Forall_py_slice. apply Hal.
  - unfold z. rewrite repeat_length.
    pose proof (window_length self idx HB). lia.
  - reflexivity.
  - rewrite Hfill. simpl. eexists _, _. split; [reflexivity |].
    intros i j Hij. destruct (Hrows i j Hij) as (l & n & H1 & H2 & H3 & H4).
    exists l, n. simpl in H3, H4.
    rewrite !nth_error_map, H3, H4. auto.
Qed.

End EvalBatches.

(** ** Shape of a returned batch *)

Lemma broadcast_axis_Ok {A : Type} (n : nat) (l l' : list A) :
  broadcast_axis n l = Ok l' -> length l' = n.
Proof.
  unfold broadcast_axis. destruct (Nat.eqb_spec (length l) n) as [He | Hne].
  - intros H. injection H as <-. exact He.
  - destruct l as [|x [|y l]]; try discriminate.
    intros H. injection H as <-. apply repeat_length.
Qed.

Lemma mapM_Ok_Forall {A B : Type} (f : A -> result B) (Q : B -> Prop)
    (l : list A) (bs : list B) :
  (forall a b, f a = Ok b -> Q b) ->
  mapM f l = Ok bs -> Forall Q bs.
Proof.
  intros Hf. revert bs. induction l as [|a l IH]; intros bs H; simpl in H.
  - injection H as <-. constructor.
  - apply bind_Ok in H as (b & Hb & H).
    apply bind_Ok in H as (bs' & Hbs & H). injection H as <-.
    constructor; eauto.
Qed.

Lemma broadcast_to_Ok {A : Type} (h w : nat) (a r : ndarray A) :
  broadcast_to h w a = Ok r -> nrows r = h /\ ncols r = w /\ well_shaped r.
Proof.
  unfold broadcast_to. destruct (negb _); [discriminate |]. intros H.
  apply bind_Ok in H as (rs & Hrs & H).
  apply bind_Ok in H as (rs' & Hrs' & H). injection H as <-.
  unfold nrows, well_shaped; simpl.
  assert (Hlen : length rs' = length rs).
  { apply mapM_Ok_map in Hrs'.
    apply (f_equal (@length _)) in Hrs'. now rewrite !length_map in Hrs'. }
  split; [| split; [reflexivity |]].
  - rewrite Hlen. eapply broadcast_axis_Ok; eassumption.
  - eapply mapM_Ok_Forall; [| exact Hrs'].
    intros x y. apply broadcast_axis_Ok.
Qed.

Lemma setitem_Forall {A : Type} (Q : A -> Prop) (l : list A) (i : nat) (v : A)
    (l' : list A) :
  setitem l i v = Ok l' -> Forall Q l -> Q v -> Forall Q l'.
Proof.
  revert i l'. induction l as [|a l IH]; intros i l' H Hl Hv; simpl in H.
  - discriminate.
  - inversion Hl as [|? ? Ha Hl']; subst. destruct i as [|i].
    + injection H as <-. now constructor.
    + apply bind_Ok in H as (l'' & H1 & H2). injection H2 as <-.
      constructor; [exact Ha | eauto].
Qed.

Section BatchShape.

Context {P : Pixels} {R : Random}.

Lemma assign_row_planes b sz i (v : image) b' :
  assign_row b sz i v = Ok b' ->
  Forall (raw_plane sz) b -> Forall (raw_plane sz) b'.
Proof.
  unfold assign_row. destruct (Nat.ltb i (length b)); [| discriminate].
  intros H Hb. apply bind_Ok in H as (v' & Hv' & H).
  apply broadcast_to_Ok in Hv' as (Hr & Hc & Hws).
  eapply setitem_Forall; [exact H | exact Hb |].
  unfold raw_plane, nrows, well_shaped in *; simpl.
  rewrite length_map. split; [exact Hr |]. split; [exact Hc |].
  apply Forall_map. eapply Forall_impl; [| exact Hws].
  simpl. intros r Hlen. now rewrite length_map.
Qed.

Lemma fill_planes self ixs :
  forall i bx by_ g bx' by' g',
    fill self i ixs bx by_ g = Ok ((bx', by'), g') ->
    Forall (raw_plane (input_size self)) bx ->
    Forall (raw_plane (input_size self)) by_ ->
    Forall (raw_plane (input_size self)) bx' /\
    Forall (raw_plane (input_size self)) by'.
Proof.
  induction ixs as [|j rest IH]; intros i bx by_ g bx' by' g' H Hx Hy;
    simpl in H.
  - injection H as <- <- <-. auto.
  - apply bind_Ok in H as ([d g1] & _ & H).
    apply bind_Ok in H as (bx1 & Ebx & H).
    apply bind_Ok in H as (by1 & Eby & H).
    eapply IH; [exact H | |]; eapply assign_row_planes; eassumption.
Qed.

Lemma newaxis_plane (sz : Z * Z) (a : ndarray f32) :
  0 <= fst sz -> 0 <= snd sz ->
  raw_plane sz a -> plane_shape sz (newaxis a).
Proof.
  intros H1 H2 (Hr & Hc & Hws). unfold plane_shape, newaxis, amap, shape, nrows in *.
  simpl. rewrite length_map, Hr, Hc, !Z2Nat.id by lia.
  split; [now destruct sz |].
  apply Forall_map. eapply Forall_impl; [| exact Hws].
  simpl. intros r Hlen. rewrite length_map. split; [congruence |].
  apply Forall_map, Forall_forall. reflexivity.
Qed.

(** X12: whatever the mode, a batch that [__getitem__] returns has
    [batch_size] planes on the source side and on the target side, and
    every plane has the working size [(h, w)] with a trailing axis of
    length 1: the two arrays have shape [(batch_size, h, w, 1)]. *)
Theorem batch_shape (self : DataLoader) (idx : Z) (g g' : RNG) (bx by_ : batch) :
  __getitem__ self idx g = Ok ((bx, by_), g') ->
  length bx = Z.to_nat (batch_size self) /\
  length by_ = Z.to_nat (batch_size self) /\
  Forall (plane_shape (input_size self)) bx /\
  Forall (plane_shape (input_size self)) by_.
Proof.
  unfold __getitem__, getbatch. intros H.
  apply bind_Ok in H as (bx0 & Hbx & H).
  apply bind_Ok in H as (by0 & Hby & H).
  apply bind_Ok in H as ([[bx1 by1] g1] & Hfill & H).
  injection H as <- <- <-. simpl.
  assert (Hnn : 0 <= fst (input_size self) /\ 0 <= snd (input_size self)).
  { unfold np_zeros in Hbx.
    destruct (Z.ltb_spec (batch_size self) 0); [discriminate |].
    destruct (Z.ltb_spec (fst (input_size self)) 0); [discriminate |].
    destruct (Z.ltb_spec (snd (input_size self)) 0); [discriminate | lia]. }
  destruct Hnn as [Hn1 Hn2].
  apply np_zeros_Ok in Hbx as [HB ->]. apply np_zeros_Ok in Hby as [_ ->].
  assert (Hz : Forall (raw_plane (input_size self))
                 (repeat (full zero32 (Z.to_nat (fst (input_size self)))
                            (Z.to_nat (snd (input_size self))))
                         (Z.to_nat (batch_size self)))).
  { apply Forall_forall. intros a Ha. apply repeat_spec in Ha. subst a.
    unfold raw_plane, full, nrows, well_shaped; simpl.
    rewrite repeat_length. split; [reflexivity |]. split; [reflexivity |].
    apply Forall_forall. intros r Hr. apply repeat_spec in Hr. subst r.
    apply repeat_length. }
  destruct (fill_planes _ _ _ _ _ _ _ _ _ Hfill Hz Hz) as [Px Py].
  apply fill_Ok in Hfill as (Lx & Ly & _). rewrite repeat_length in Lx, Ly.
  rewrite !length_map. split; [exact Lx |]. split; [exact Ly |].
  split; apply Forall_map; (eapply Forall_impl; [| eassumption]);
    intros a Ha; now apply newaxis_plane.
Qed.

End BatchShape.

(** ** Failing batches *)

Section Failures.

Context {P : Pixels} {R : Random}.

Lemma getitem_first_fails (self : DataLoader) (idx j : Z) (rest : list Z)
    (g : RNG) (e : pyerr) :
  0 <= batch_size self ->
  0 <= fst (input_size self) -> 0 <= snd (input_size self) ->
  window self idx = j :: rest ->
  sample self j g = Err e ->
  __getitem__ self idx g = Err e.
Proof.
  intros HB H1 H2 Hw Hs. unfold __getitem__, getbatch.
  rewrite np_zeros_nonneg by assumption. simpl.
  rewrite Hw. simpl. rewrite Hs. reflexivity.
Qed.

Lemma sample_full_size (self : DataLoader) (j : Z) (g : RNG) :
  patch_size self = None -> forall r, sample self j g <> Ok r.
Proof.
  intros Hps r. unfold sample.
  destruct (py_getitem (ldct self) j) as [l|]; simpl; [| discriminate].
  destruct (py_getitem (ndct self) _) as [n|]; simpl; [| discriminate].
  destruct (is_train (mode self)).
  - destruct (aug self) as [a|]; [| discriminate].
    destruct (run_compose a g (l, n)) as [d g1].
    unfold random_crop. rewrite Hps.
    destruct (negb _); discriminate.
  - unfold center_crop. rewrite Hps. discriminate.
Qed.

(** X13: with [patch_size=None] no batch over a non-empty window is ever
    returned: [random_crop] leaves [crop_size] unbound and [center_crop]
    divides [None]; in valid and test mode, on an aligned loader, the
    call ends in [TypeError]. *)
Theorem full_size_never_returns (self : DataLoader) (idx : Z) (g : RNG) :
  patch_size self = None ->
  window self idx <> [] ->
  (forall r, __getitem__ self idx g <> Ok r) /\
  (is_train (mode self) = false -> aligned self ->
   0 <= batch_size self ->
   0 <= fst (input_size self) -> 0 <= snd (input_size self) ->
   __getitem__ self idx g = Err TypeError).
Proof.
  intros Hps Hw. destruct (window self idx) as [|j rest] eqn:Ew; [now elim Hw |].
  split.
  - intros r H. unfold __getitem__, getbatch in H. rewrite Ew in H.
    apply bind_Ok in H as (bx & _ & H). apply bind_Ok in H as (by_ & _ & H).
    apply bind_Ok in H as (b & H & _). simpl in H.
    apply bind_Ok in H as (d & H & _).
    exact (sample_full_size self j g Hps d H).
  - intros Hm Hal HB H1 H2.
    apply (getitem_first_fails self idx j rest g TypeError HB H1 H2 Ew).
    assert (Hj : 0 <= j < zlen (ldct self)).
    { destruct Hal as (_ & Hix & _).
      assert (Hin : In j (window self idx)) by (rewrite Ew; now left).
      pose proof (Forall_py_slice _ _ (idx * batch_size self)
                    ((idx + 1) * batch_size self) Hix) as Hwin.
      rewrite Forall_forall in Hwin. now apply Hwin. }
    unfold sample.
    destruct (py_getitem_in_range (ldct self) j Hj) as [l ->]. simpl.
    assert (Hj' : 0 <= pair_index (train_pair self) j < zlen (ndct self)).
    { destruct Hal as (Hlen & _ & Hpair). unfold zlen in *. rewrite Hlen.
      apply pair_index_in_range; [exact Hj |].
      destruct Hpair; [now left | right; lia]. }
    destruct (py_getitem_in_range (ndct self) _ Hj') as [n ->]. simpl.
    rewrite Hm. unfold center_crop. rewrite Hps. reflexivity.
Qed.

Lemma sample_target_missing (self : DataLoader) (j : Z) (g : RNG) :
  0 <= j < zlen (ldct self) ->
  zlen (ndct self) <= pair_index (train_pair self) j ->
  sample self j g = Err IndexError.
Proof.
  intros Hj Hn. unfold sample.
  destruct (py_getitem_in_range (ldct self) j Hj) as [l ->]. simpl.
  unfold py_getitem.
  assert (H0 : 0 <= pair_index (train_pair self) j).
  { unfold pair_index. destruct (train_pair self); [lia |].
    destruct (Z.eqb_spec j 0); simpl; lia. }
  destruct (Z.ltb_spec (pair_index (train_pair self) j) 0); [lia |].
  destruct (Z.ltb_spec (pair_index (train_pair self) j) 0); [lia |].
  destruct (Z.leb_spec (zlen (ndct self)) (pair_index (train_pair self) j));
    [reflexivity | lia].
Qed.

(** X14: the store is not re-checked when a batch is drawn: if the first
    index of the window has its target index at or past the number of
    targets (a store with fewer targets than sources), the call ends in
    [IndexError]. *)
Theorem missing_target_raises (self : DataLoader) (idx j : Z) (rest : list Z)
    (g : RNG) :
  0 <= batch_size self ->
  0 <= fst (input_size self) -> 0 <= snd (input_size self) ->
  window self idx = j :: rest ->
  0 <= j < zlen (ldct self) ->
  zlen (ndct self) <= pair_index (train_pair self) j ->
  __getitem__ self idx g = Err IndexError.
Proof.
  intros HB H1 H2 Hw Hj Hn.
  apply (getitem_first_fails self idx j rest g IndexError HB H1 H2 Hw).
  now apply sample_target_missing.
Qed.

(** X15: a store of a single sample read without [train_pair] cannot
    deliver its batch: the neighbour of slot 0 is slot 1, which does not
    exist, and position 0 ends in [IndexError]. *)
Theorem lone_sample_unpaired_raises (self : DataLoader) (g : RNG) :
  train_pair self = false ->
  length (ldct self) = 1%nat -> length (ndct self) = 1%nat ->
  indexes self = [0] ->
  0 < batch_size self ->
  0 <= fst (input_size self) -> 0 <= snd (input_size self) ->
  __len__ self = Ok (1 / batch_size self) /\
  __getitem__ self 0 g = Err IndexError.
Proof.
  intros Htp Hl Hn Hix HB H1 H2. split.
  - unfold __len__, zlen. rewrite Hl.
    destruct (Z.eqb_spec (batch_size self) 0); [lia | reflexivity].
  - apply (getitem_first_fails self 0 0 [] g IndexError); try assumption; try lia.
    + unfold window. rewrite Hix.
      replace (0 * batch_size self) with 0 by lia.
      replace ((0 + 1) * batch_size self) with (batch_size self) by lia.
      unfold py_slice, zlen. cbn [length Z.of_nat Pos.of_succ_nat].
      rewrite (adjust_inside 1 0) by lia.
      unfold adjust. destruct (Z.ltb_spec (batch_size self) 0) as [Hneg | _]; [lia |].
      rewrite Z.min_r by lia. reflexivity.
    + apply sample_target_missing; unfold zlen; rewrite ?Hl, ?Hn, ?Htp; simpl; lia.
Qed.

End Failures.

(** ** Train batches *)

Section TrainBatches.

Context {P : Pixels} {R : Random}.

(** X16: with the three probabilities at 0, as the constructor leaves
    them, no step of the pipeline fires: the pair comes back unchanged,
    and a train sample is the random crop of the stored pair. *)
Theorem default_pipeline_is_identity {TS : TrialSpec R}
    (self : DataLoader) (j : Z) (g : RNG) :
  mode self = train ->
  aug self = Some (pipeline 0 0 0) ->
  (forall d, run_compose (pipeline 0 0 0) g d = (d, after_trials 0 0 0 g)) /\
  sample self j g =
    (l <- py_getitem (ldct self) j ;;
     n <- py_getitem (ndct self) (pair_index (train_pair self) j) ;;
     random_crop self l n (after_trials 0 0 0 g)).
Proof.
  intros Hm Ha.
  assert (Hrun : forall d,
             run_compose (pipeline 0 0 0) g d = (d, after_trials 0 0 0 g)).
  { intros d. unfold pipeline, after_trials. simpl.
    pose proof (bernoulli_zero g) as H1.
    destruct (bernoulli g 0) as [b1 g1]. simpl in *. subst b1.
    pose proof (bernoulli_zero g1) as H2.
    destruct (bernoulli g1 0) as [b2 g2]. simpl in *. subst b2.
    pose proof (bernoulli_zero g2) as H3.
    destruct (bernoulli g2 0) as [b3 g3]. simpl in *. subst b3.
    reflexivity. }
  split; [exact Hrun |].
  unfold sample. rewrite Hm, Ha. cbn [is_train].
  destruct (py_getitem (ldct self) j) as [l|]; cbn [bind]; [| reflexivity].
  destruct (py_getitem (ndct self) _) as [n|]; cbn [bind]; [| reflexivity].
  rewrite Hrun. reflexivity.
Qed.

Context {RS : RandomSpec R} {FS : TransformSpec R}.

Lemma run_compose_shapes (c : Compose) :
  forall g d,
    well_shaped (fst d) -> well_shaped (snd d) ->
    let r := fst (run_compose c g d) in
    shape (fst r) = shape (fst d) /\ shape (snd r) = shape (snd d) /\
    well_shaped (fst r) /\ well_shaped (snd r).
Proof.
  induction c as [|[t p] c IH]; intros g d W1 W2; simpl.
  - auto.
  - destruct (bernoulli g p) as [hit g1]. destruct hit.
    + pose proof (apply_transform_shape t g1 d) as [S1 S2].
      pose proof (apply_transform_well_shaped t g1 d W1 W2) as [W1' W2'].
      destruct (apply_transform t g1 d) as [d' g2]. simpl in *.
      destruct (IH g2 d' W1' W2') as (H1 & H2 & H3 & H4).
      rewrite <- S1, <- S2. auto.
    + apply IH; assumption.
Qed.

Lemma sample_train_returns self p h w j g :
  mode self = train -> (exists a, aug self = Some a) ->
  aligned self -> roomy self p h w ->
  0 <= j < zlen (ldct self) ->
  exists l' n' g', sample self j g = Ok ((l', n'), g') /\
    (well_shaped l' /\ nrows l' = Z.to_nat p /\ ncols l' = Z.to_nat p) /\
    (well_shaped n' /\ nrows n' = Z.to_nat p /\ ncols n' = Z.to_nat p).
Proof.
  intros Hm [a Ha] (Hlen & _ & Hpair) (Hps & _ & Hp & Hh & Hw & Hl & Hn) Hj.
  unfold sample.
  destruct (py_getitem_in_range (ldct self) j Hj) as [l El]. rewrite El. simpl.
  assert (Hj' : 0 <= pair_index (train_pair self) j < zlen (ndct self)).
  { unfold zlen in *. rewrite Hlen.
    apply pair_index_in_range; [exact Hj |].
    destruct Hpair; [now left | right; lia]. }
  destruct (py_getitem_in_range (ndct self) _ Hj') as [n En]. rewrite En. simpl.
  rewrite Hm, Ha. simpl.
  apply py_getitem_In in El, En. rewrite Forall_forall in Hl, Hn.
  destruct (Hl l El) as [Wl Sl]. destruct (Hn n En) as [Wn Sn].
  pose proof (run_compose_shapes a g (l, n) Wl Wn) as (S1 & S2 & W1 & W2).
  destruct (run_compose a g (l, n)) as [[l1 n1] g1]. simpl in *.
  rewrite Sl in S1. rewrite Sn in S2.
  unfold random_crop. rewrite S1, S2, shape_eqb_refl, Hps. simpl.
  destruct (np_randint_range g1 0 (h - p) ltac:(lia)) as (x & g2 & -> & Hx).
  simpl.
  destruct (np_randint_range g2 0 (w - p) ltac:(lia)) as (y & g3 & -> & Hy).
  simpl.
  unfold shape in S1, S2. injection S1 as R1 C1. injection S2 as R2 C2.
  eexists _, _, _. split; [reflexivity |].
  split; (split; [now apply well_shaped_slice2 |]);
    unfold nrows at 1, slice2; simpl;
    rewrite length_map, length_py_slice;
    rewrite !slice_len_inside by (unfold nrows in *; lia);
    split; f_equal; lia.
Qed.

Lemma fill_train_returns self p h w ixs :
  mode self = train -> (exists a, aug self = Some a) ->
  aligned self -> roomy self p h w ->
  Forall (fun j => 0 <= j < zlen (ldct self)) ixs ->
  forall i bx by_ g,
    (i + length ixs <= length bx)%nat -> length by_ = length bx ->
    exists bx' by' g', fill self i ixs bx by_ g = Ok ((bx', by'), g').
Proof.
  intros Hm Ha Hal Hro Hixs.
  induction Hixs as [|j rest Hj _ IH]; intros i bx by_ g Hi Hby; simpl in *.
  - eauto.
  - destruct (sample_train_returns self p h w j g Hm Ha Hal Hro Hj)
      as (l' & n' & g1 & -> & (Wl & Rl & Cl) & (Wn & Rn & Cn)). simpl.
    destruct Hro as (_ & Hsz & _).
    destruct (assign_row_same bx (input_size self) i l' ltac:(lia) Wl)
      as [bx1 Ebx]; try (rewrite Hsz; assumption).
    destruct (assign_row_same by_ (input_size self) i n' ltac:(lia) Wn)
      as [by1 Eby]; try (rewrite Hsz; assumption).
    rewrite Ebx. simpl. rewrite Eby. simpl.
    apply assign_row_Ok in Ebx as [Lx _]. apply assign_row_Ok in Eby as [Ly _].
    apply IH; lia.
Qed.

(** X17: in train mode, on an aligned loader whose arrays all have one
    shape strictly larger than the patch in both dimensions, every
    position returns a batch, whatever the augmentation probabilities
    and the generator state. *)
Theorem train_batch_returns (self : DataLoader) (p h w idx : Z) (g : RNG) :
  mode self = train -> (exists a, aug self = Some a) ->
  aligned self -> roomy self p h w ->
  0 <= batch_size self ->
  exists bx by_ g', __getitem__ self idx g = Ok ((bx, by_), g').
Proof.
  intros Hm Ha Hal Hro HB. unfold __getitem__, getbatch.
  pose proof Hro as (_ & Hsz & Hp & _).
  rewrite np_zeros_nonneg by (rewrite ?Hsz; simpl; lia). simpl.
  destruct (fill_train_returns self p h w (window self idx) Hm Ha Hal Hro)
    with (i := 0%nat) (g := g)
         (bx := repeat (full zero32 (Z.to_nat (fst (input_size self)))
                          (Z.to_nat (snd (input_size self))))
                       (Z.to_nat (batch_size self)))
         (by_ := repeat (full zero32 (Z.to_nat (fst (input_size self)))
                           (Z.to_nat (snd (input_size self))))
                        (Z.to_nat (batch_size self)))
    as (bx' & by' & g' & ->).
  - apply Forall_py_slice. apply Hal.
  - rewrite repeat_length. pose proof (window_length self idx HB). lia.
  - reflexivity.
  - simpl. eauto.
Qed.

End TrainBatches.

(** ** Arrays smaller than the patch *)

Lemma py_slice_unit {A : Type} (x : A) (s e : Z) :
  s <= 0 -> 1 <= e -> py_slice [x] s e = [x].
Proof.
  intros Hs He. unfold py_slice, zlen. cbn [length Z.of_nat Pos.of_succ_nat].
  assert (H0 : adjust 1 s = 0)
    by (unfold adjust; destruct (Z.ltb_spec s 0); lia).
  assert (H1 : adjust 1 e = 1)
    by (unfold adjust; destruct (Z.ltb_spec e 0); lia).
  rewrite H0, H1. reflexivity.
Qed.

Lemma slice_len_unit (s e : Z) : s <= 0 -> 1 <= e -> slice_len 1 s e = 1%nat.
Proof.
  intros Hs He. unfold slice_len. cbn [Z.of_nat Pos.of_succ_nat].
  assert (H0 : adjust 1 s = 0)
    by (unfold adjust; destruct (Z.ltb_spec s 0); lia).
  assert (H1 : adjust 1 e = 1)
    by (unfold adjust; destruct (Z.ltb_spec e 0); lia).
  rewrite H0, H1. reflexivity.
Qed.

Lemma broadcast_axis_unit {A : Type} (n : nat) (x : A) :
  broadcast_axis n [x] = Ok (repeat x n).
Proof.
  unfold broadcast_axis. simpl.
  destruct n as [|[|n]]; reflexivity.
Qed.

Lemma mapM_broadcast_repeat {A : Type} (w h : nat) (x : A) :
  mapM (broadcast_axis w) (repeat [x] h) = Ok (repeat (repeat x w) h).
Proof.
  induction h as [|h IH]; simpl.
  - reflexivity.
  - change (broadcast_axis w [x]) with (@broadcast_axis A w [x]).
    rewrite broadcast_axis_unit. simpl. now rewrite IH.
Qed.

Section SmallArrays.

Context {P : Pixels} {R : Random}.

(** X18: a stored array of a single pixel passes [center_crop] unchanged
    for every patch size [p >= 1], and the row assignment then broadcasts
    that pixel over the whole [p] by [p] plane of the batch: no error is
    raised for this array smaller than the patch. *)
Theorem single_pixel_broadcast (self : DataLoader) (p : Z) (v : px)
    (b : list (ndarray f32)) (i : nat) :
  patch_size self = Some p ->
  1 <= p ->
  (i < length b)%nat ->
  center_crop self (mkArr [[v]] 1) = Ok (mkArr [[v]] 1) /\
  exists b',
    assign_row b (p, p) i (mkArr [[v]] 1) = Ok b' /\
    nth_error b' i = Some (full (as_f32 v) (Z.to_nat p) (Z.to_nat p)).
Proof.
  intros Hps Hp Hi. split.
  - rewrite (center_crop_eq self _ p Hps).
    unfold center_window, slice2, center_start, nrows.
    cbn [rows ncols length Z.of_nat Pos.of_succ_nat].
    assert (Hs : 1 / 2 - p / 2 <= 0 /\ 1 <= 1 / 2 - p / 2 + p).
    { pose proof (Z.div_mod p 2 ltac:(lia)).
      pose proof (Z.mod_pos_bound p 2 ltac:(lia)).
      change (1 / 2) with 0. lia. }
    destruct Hs as [Hs He].
    rewrite (py_slice_unit [v]) by assumption.
    cbn [map]. rewrite py_slice_unit, slice_len_unit by assumption.
    reflexivity.
  - unfold assign_row.
    destruct (Nat.ltb_spec i (length b)) as [_ | Hge]; [| lia].
    unfold broadcast_to. cbn [ncols rows fst snd].
    rewrite Nat.eqb_refl, orb_true_r. cbn [negb].
    rewrite broadcast_axis_unit. cbn [bind].
    rewrite mapM_broadcast_repeat. cbn [bind].
    destruct (setitem_at b i
                (amap as_f32 (mkArr (repeat (repeat v (Z.to_nat p)) (Z.to_nat p))
                                    (Z.to_nat p))) Hi) as (b' & Hb' & Hnth).
    exists b'. split; [exact Hb' |]. rewrite Hnth.
    unfold amap, full. cbn [rows ncols]. now rewrite !map_repeat.
Qed.

End SmallArrays.

(** * The further properties on concrete data *)

Lemma sim_trial_spec : TrialSpec Sim.random.
Proof.
  constructor. intros g. simpl. unfold Sim.trial. simpl.
  apply negb_false_iff. unfold Qle_bool. simpl.
  apply Z.leb_le. pose proof (Z.mod_pos_bound g 100 ltac:(lia)). lia.
Qed.

Lemma sim_transform_spec : TransformSpec Sim.random.
Proof.
  constructor.
  - intros t g [a b]. destruct t; simpl; unfold shape, nrows; simpl;
      rewrite ?length_rev, ?length_map; auto.
  - intros t g [a b] Wa Wb. unfold well_shaped in *.
    destruct t; simpl in *; split;
      try (apply Forall_rev; assumption); try assumption.
    apply Forall_map. eapply Forall_impl; [| exact Wa].
    simpl. intros r Hr. now rewrite length_map.
Qed.

Lemma train_loader_aligned : aligned Ex.train_loader.
Proof.
  split; [reflexivity |]. split; [| left; reflexivity].
  repeat constructor; unfold zlen; simpl; lia.
Qed.

Lemma train_loader_roomy : roomy Ex.train_loader 3 4 4.
Proof.
  split; [reflexivity |]. split; [reflexivity |].
  split; [lia |]. split; [lia |]. split; [lia |].
  split; repeat constructor; apply ramp_well_shaped.
Qed.

Lemma dir_tags_exclusive (f : npy_file Z) :
  In f Ex.dir ->
  selected valid "L333" "L506" f && selected test "L333" "L506" f = false.
Proof.
  intros Hin. simpl in Hin.
  repeat (destruct Hin as [<- | Hin]; [reflexivity |]). contradiction.
Qed.

Lemma splits_partition_witness :
  Permutation
    (filter (selected train "L333" "L506") Ex.dir ++
     filter (selected valid "L333" "L506") Ex.dir ++
     filter (selected test "L333" "L506") Ex.dir) Ex.dir.
Proof.
  destruct (splits_partition (P := Sim.pixels) "L333" "L506" Ex.dir) as [_ H].
  apply H. exact dir_tags_exclusive.
Defined.

Lemma selected_by_substring_witness :
  selected valid "L333" "L506" (Ex.file "L333_a_ldct.npy" 300 4) = true.
Proof.
  destruct (selected_by_substring (P := Sim.pixels) "L333" "L506"
              (Ex.file "L333_a_ldct.npy" 300 4)) as [H _].
  apply H. exists ""%string, "_a_ldct.npy"%string. reflexivity.
Defined.

Lemma load_succeeds_iff_witness :
  exists r, load valid "L333" "L506"
              (sorted (glob Ex.dir "_ldct.npy")) (sorted (glob Ex.dir "_ndct.npy"))
            = Ok r.
Proof.
  destruct (load_succeeds_iff (P := Sim.pixels) valid "L333" "L506"
              (sorted (glob Ex.dir "_ldct.npy"))
              (sorted (glob Ex.dir "_ndct.npy"))) as [[_ H] _].
  apply H. intros f Hin _. vm_compute in Hin.
  repeat (destruct Hin as [<- | Hin]; [eexists; reflexivity |]). contradiction.
Defined.

Lemma init_state_witness :
  __init__ train Ex.dir "L333" "L506" 1 true (Some 3) 7 =
    Ok (Ex.train_loader, Sim.next 7) /\
  aug Ex.train_loader = Some (pipeline 0 0 0) /\
  is_permutation 2 (indexes Ex.train_loader) /\
  input_size Ex.train_loader = (3, 3) /\
  aligned Ex.train_loader.
Proof.
  split; [exact train_loader_built |].
  destruct (init_state (RS := sim_random_spec) train Ex.dir "L333" "L506" 1 true
              (Some 3) 7 Ex.train_loader (Sim.next 7) train_loader_built)
    as (_ & (_ & _ & _ & Ha) & Hp & _ & _ & Hsz & _ & Hal).
  split; [exact Ha |]. split; [exact Hp |]. split; [now apply Hsz |].
  apply Hal; [reflexivity | now left].
Defined.

Lemma init_outcome_witness :
  __init__ valid Ex.dir "L999" "L506" 1 true None 7 = Err IndexError /\
  exists self g',
    __init__ valid Ex.dir "L333" "L506" 1 true None 7 = Ok (self, g') /\
    ldct self = [Sim.ramp 300 4] /\ ndct self = [Sim.ramp 700 4].
Proof.
  split.
  - destruct (init_outcome (P := Sim.pixels) (R := Sim.random)
                valid Ex.dir "L999" "L506" 1 true None 7) as (_ & H & _).
    apply (H []); reflexivity.
  - destruct (init_outcome (P := Sim.pixels) (R := Sim.random)
                valid Ex.dir "L333" "L506" 1 true None 7) as (_ & _ & H).
    apply H; [reflexivity | right; discriminate].
Defined.

Lemma window_in_range_witness :
  __len__ Ex.five = Ok 2 /\
  length (window Ex.five 1) = 2%nat /\
  nth_error (window Ex.five 1) 0 = Some 4 /\
  nth_error (window Ex.five 1) 1 = Some 1.
Proof.
  split; [reflexivity |].
  destruct (window_in_range Ex.five 2 1 eq_refl ltac:(lia) eq_refl) as [Hl Hn].
  split; [exact Hl |].
  split; [exact (Hn 0%nat ltac:(simpl; lia)) | exact (Hn 1%nat ltac:(simpl; lia))].
Defined.

Lemma window_negative_witness :
  window Ex.five (-2) = [0; 4] /\ length (window Ex.five (-2)) = 2%nat.
Proof.
  exact (window_negative Ex.five 2 eq_refl ltac:(lia) ltac:(now vm_compute)).
Defined.

Lemma epoch_draws_distinct_witness :
  NoDup (window Ex.train_loader 0 ++ window Ex.train_loader 1) /\
  Forall (fun j => 0 <= j < 2) (window Ex.train_loader 0 ++ window Ex.train_loader 1).
Proof.
  assert (Hp : is_permutation (length (ldct Ex.train_loader))
                 (indexes Ex.train_loader)) by apply perm_swap.
  destruct (epoch_draws_distinct Ex.train_loader eq_refl Hp) as (H1 & _ & H3 & _).
  split; [exact H1 | exact H3].
Defined.

Lemma eval_ignores_generator_witness :
  exists r : result (batch * batch),
    forall g, __getitem__ Ex.valid_loader 0 g =
              match r with Ok b => Ok (b, g) | Err e => Err e end.
Proof.
  exact (eval_ignores_generator (R := Sim.random) Ex.valid_loader 0 eq_refl).
Defined.

Lemma eval_batch_content_witness :
  exists bx by_,
    __getitem__ Ex.test_loader 0 7 = Ok ((bx, by_), 7) /\
    nth_error bx 0 = Some (plane_of (center_window 3 (Sim.ramp 400 4))) /\
    nth_error by_ 0 = Some (plane_of (center_window 3 (Sim.ramp 800 4))).
Proof.
  destruct (eval_batch_content (R := Sim.random) Ex.test_loader 3 0 7 eq_refl
              test_loader_aligned test_loader_croppable ltac:(now vm_compute))
    as (bx & by_ & E & Hrows).
  exists bx, by_. split; [exact E |].
  destruct (Hrows 0%nat 0 eq_refl) as (l & n & Hl & Hn & Hx & Hy).
  injection Hl as <-. injection Hn as <-. split; [exact Hx | exact Hy].
Defined.

Lemma batch_shape_witness :
  __getitem__ Ex.valid_loader 1 7 = Ok (([Ex.zeros3], [Ex.zeros3]), 7) /\
  Forall (plane_shape (3, 3)) [Ex.zeros3].
Proof.
  split; [reflexivity |].
  destruct (batch_shape (R := Sim.random) Ex.valid_loader 1 7 7
              [Ex.zeros3] [Ex.zeros3] eq_refl) as (_ & _ & H & _).
  exact H.
Defined.

Lemma full_size_valid_aligned : aligned Ex.full_size_loader.
Proof.
  split; [reflexivity |]. split; [| left; reflexivity].
  repeat constructor; unfold zlen; simpl; lia.
Qed.

Lemma full_size_never_returns_witness :
  patch_size Ex.full_size_loader = None /\
  window Ex.full_size_loader 0 = [0] /\
  __getitem__ Ex.full_size_loader 0 7 = Err TypeError.
Proof.
  split; [reflexivity |]. split; [reflexivity |].
  destruct (full_size_never_returns (R := Sim.random) Ex.full_size_loader 0 7
              eq_refl ltac:(discriminate)) as [_ H].
  apply H; try reflexivity; try (now vm_compute).
  exact full_size_valid_aligned.
Defined.

Lemma short_targets_built :
  __init__ train Ex.dir_missing "L333" "L506" 1 true (Some 3) 7 =
  Ok (Ex.short_targets, Sim.next 7).
Proof. vm_compute. reflexivity. Qed.

Lemma missing_target_raises_witness :
  window Ex.short_targets 0 = [1] /\
  __getitem__ Ex.short_targets 0 7 = Err IndexError.
Proof.
  split; [reflexivity |].
  apply (missing_target_raises (R := Sim.random) Ex.short_targets 0 1 [] 7);
    try reflexivity; try (now vm_compute).
Defined.

Lemma lone_sample_unpaired_raises_witness :
  __len__ Ex.lone_unpaired = Ok 1 /\
  __getitem__ Ex.lone_unpaired 0 7 = Err IndexError.
Proof.
  apply (lone_sample_unpaired_raises (R := Sim.random) Ex.lone_unpaired 7);
    try reflexivity; now vm_compute.
Defined.

Lemma default_pipeline_is_identity_witness :
  run_compose (pipeline 0 0 0) 7 (Sim.ramp 100 4, Sim.ramp 500 4) =
    ((Sim.ramp 100 4, Sim.ramp 500 4), after_trials 0 0 0 7).
Proof.
  destruct (default_pipeline_is_identity (TS := sim_trial_spec)
              Ex.train_loader 0 7 eq_refl eq_refl) as [H _].
  apply H.
Defined.

Lemma train_batch_returns_witness :
  exists bx by_ g', __getitem__ Ex.train_loader 0 7 = Ok ((bx, by_), g').
Proof.
  apply (train_batch_returns (RS := sim_random_spec) (FS := sim_transform_spec)
           Ex.train_loader 3 4 4 0 7 eq_refl).
  - eexists. reflexivity.
  - exact train_loader_aligned.
  - exact train_loader_roomy.
  - now vm_compute.
Defined.

Lemma single_pixel_broadcast_witness :
  center_crop Ex.valid_loader (mkArr [[5]] 1) = Ok (mkArr [[5]] 1) /\
  exists b',
    assign_row [full 0 3 3] (3, 3) 0 (mkArr [[5]] 1) = Ok b' /\
    nth_error b' 0 = Some (full 5 3 3).
Proof.
  apply (single_pixel_broadcast (P := Sim.pixels) Ex.valid_loader 3 5
           [full 0 3 3] 0 eq_refl); [lia | simpl; lia].
Defined.
